(** * PointZero order intake: estimator, order store and order routes

    A shallow embedding of the server side of the 3D-printing order
    application (server/storage.ts, shared/schema.ts and the route module
    with [analyze3DModel], [formatPrintTime] and [registerRoutes]), together
    with the client form schema of client/src/components/order-form.tsx.

    JavaScript numbers are IEEE-754 binary64 values and are modelled by the
    primitive floats of the prover, so every arithmetic step rounds exactly
    as it does in the running program.  The number built-ins the source
    calls ([Math.max], [Math.floor], [%], [toFixed], [toString],
    [parseFloat]) are written out from their ECMAScript definitions on the
    exact rational value of a double.  Strings are sequences of 8-bit
    characters, which is what the texts handled here are made of. *)

From Stdlib Require Import ZArith QArith Qabs Qround Qpower Floats Ascii String DecimalString Lia.
From stdpp Require Import gmap strings.

Local Open Scope Z_scope.

(** ** JavaScript numbers *)

Module JS.

Definition number := float.

(** The exact rational value of a finite double; [None] for NaN and the
    infinities. *)
Definition toQ (x : number) : option Q :=
  match Prim2SF x with
  | S754_zero _ => Some 0%Q
  | S754_finite s m e =>
      let v := (inject_Z (Zpos m) * Qpower 2 e)%Q in
      Some (Qred (if s then Qopp v else v))
  | S754_infinity _ | S754_nan => None
  end.

(** The double nearest to the positive rational [p/q], ties to the even
    significand, subnormals and overflow included. *)
Definition ofPos (p q : positive) : number :=
  let scaled (e : Z) : Z * Z :=
    if e <? 0 then (Zpos p * 2 ^ (- e), Zpos q) else (Zpos p, Zpos q * 2 ^ e) in
  let e1 := Z.max (Z.log2 (Zpos p) - Z.log2 (Zpos q) - 53) (-1074) in
  let e := let '(n, d) := scaled e1 in
           if 2 ^ 53 * d <=? n then e1 + 1 else e1 in
  let '(n, d) := scaled e in
  let m := n / d in
  let m' := match 2 * (n mod d) ?= d with
            | Lt => m
            | Gt => m + 1
            | Eq => if Z.even m then m else m + 1
            end in
  Z.ldexp (of_uint63 (Uint63.of_Z m')) e.

Definition ofQ (q : Q) : number :=
  match Qnum q with
  | Z0 => PrimFloat.zero
  | Zpos p => ofPos p (Qden q)
  | Zneg p => opp (ofPos p (Qden q))
  end.

Definition Qltb (a b : Q) : bool := negb (Qle_bool b a).

Definition pow10 (n : Z) : Q := Qpower (10 # 1) n.

(** [Math.max(a, b)]: NaN if either argument is NaN, and +0 above -0. *)
Definition Math_max (a b : number) : number :=
  if is_nan a || is_nan b then nan
  else if PrimFloat.ltb a b then b
  else if PrimFloat.ltb b a then a
  else if get_sign a then b else a.

(** [Math.floor(x)]: NaN, the infinities and both zeros are returned as
    they are. *)
Definition Math_floor (x : number) : number :=
  match toQ x with
  | None => x
  | Some q => if is_zero x then x else ofQ (inject_Z (Qfloor q))
  end.

(** The remainder [x % y], with the sign of the dividend. *)
Definition rem (x y : number) : number :=
  match toQ x, toQ y with
  | Some qx, Some qy =>
      if is_zero y then nan
      else if is_zero x then x
      else
        let t := (qx / qy)%Q in
        let trunc := if Qle_bool 0 t then Qfloor t else Qceiling t in
        let r := Qred (qx - qy * inject_Z trunc)%Q in
        if Qeq_bool r 0 then (if get_sign x then neg_zero else PrimFloat.zero) else ofQ r
  | Some _, None => if is_nan y then nan else x
  | None, _ => nan
  end.

(** *** Decimal text of integers *)

Definition digitsOfZ (z : Z) : string :=
  NilZero.string_of_uint (N.to_uint (Z.to_N z)).

Fixpoint zeros (n : nat) : string :=
  match n with
  | O => EmptyString
  | S n' => String "0"%char (zeros n')
  end.

Fixpoint takeStr (n : nat) (s : string) : string :=
  match n, s with
  | S n', String c r => String c (takeStr n' r)
  | _, _ => EmptyString
  end.

Fixpoint dropStr (n : nat) (s : string) : string :=
  match n, s with
  | S n', String _ r => dropStr n' r
  | _, _ => s
  end.

(** *** [Number.prototype.toString] (radix 10) *)

(** The decade of a positive rational: the [n] with
    [10^(n-1) <= q < 10^n]. *)
Definition decade (q : Q) : Z :=
  let est := (Z.log2 (Qnum q) - Z.log2 (Zpos (Qden q))) * 30103 / 100000 - 2 in
  match List.find (fun n => Qltb q (pow10 n))
                  (List.map (fun i => est + Z.of_nat i) (List.seq 0 8)) with
  | Some n => n
  | None => est
  end.

(** The candidates with [k] significant digits next to [q], as pairs
    [(s, n)] standing for [s * 10^(n-k)]; the closer one first. *)
Definition candidates (q : Q) (n0 k : Z) : list (Z * Z) :=
  let t := (q * pow10 (k - n0))%Q in
  let lo := Qfloor t in
  let below := (lo, n0) in
  let above := if lo + 1 =? 10 ^ k then (10 ^ (k - 1), n0 + 1) else (lo + 1, n0) in
  match Qcompare (t - inject_Z lo) (inject_Z (lo + 1) - t) with
  | Lt => [below; above]
  | Gt => [above; below]
  | Eq => if Z.even lo then [below; above] else [above; below]
  end.

Definition roundTrips (x : number) (k : Z) (c : Z * Z) : bool :=
  PrimFloat.eqb (ofQ (inject_Z (fst c) * pow10 (snd c - k))) x.

(** The digits [s], the exponent [n] and the digit count [k] of a positive
    finite double: the least [k] for which some [s * 10^(n-k)] reads back
    as [x], and among those [s] the closest to [x]. *)
Definition shortest (x : number) (q : Q) : Z * Z * Z :=
  let n0 := decade q in
  let try (k : Z) := List.find (roundTrips x k) (candidates q n0 k) in
  let fix go (ks : list Z) : Z * Z * Z :=
    match ks with
    | [] => (Qfloor (q * pow10 (17 - n0)), n0, 17)
    | k :: ks' => match try k with
                  | Some (s, n) => (s, n, k)
                  | None => go ks'
                  end
    end in
  go (List.map Z.of_nat (List.seq 1 17)).

Definition formatDigits (s n k : Z) : string :=
  let ds := digitsOfZ s in
  if (-5 <=? n) && (n <=? 21) then
    if k <=? n then ds +:+ zeros (Z.to_nat (n - k))
    else if 0 <? n then takeStr (Z.to_nat n) ds +:+ "." +:+ dropStr (Z.to_nat n) ds
    else "0." +:+ zeros (Z.to_nat (- n)) +:+ ds
  else
    let e := n - 1 in
    let es := (if e <? 0 then "-" else "+") +:+ digitsOfZ (Z.abs e) in
    if k =? 1 then ds +:+ "e" +:+ es
    else takeStr 1 ds +:+ "." +:+ dropStr 1 ds +:+ "e" +:+ es.

Definition toStringPos (x : number) : string :=
  match toQ x with
  | None => "Infinity"
  | Some q => let '(s, n, k) := shortest x q in formatDigits s n k
  end.

Definition toString (x : number) : string :=
  if is_nan x then "NaN"
  else if is_zero x then "0"
  else if PrimFloat.ltb x PrimFloat.zero then "-" +:+ toStringPos (opp x)
  else toStringPos x.

(** *** [Number.prototype.toFixed] *)

Definition toFixed (x : number) (f : nat) : string :=
  match toQ x with
  | None => toString x
  | Some q =>
      let sign := if Qltb q 0 then "-" else "" in
      let a := Qabs q in
      if Qle_bool (pow10 21) a then toString x
      else
        (* the integer n with n / 10^f closest to a, the larger on a tie *)
        let n := Qfloor (a * pow10 (Z.of_nat f) + (1 # 2))%Q in
        let m := digitsOfZ n in
        let m := zeros (S f - String.length m) +:+ m in
        let k := String.length m in
        sign +:+ (if Nat.eqb f 0 then m
                  else takeStr (k - f) m +:+ "." +:+ dropStr (k - f) m)
  end.

(** *** [parseFloat] *)

Definition isDigit (c : ascii) : bool :=
  let n := nat_of_ascii c in (48 <=? n)%nat && (n <=? 57)%nat.

Definition isSpace (c : ascii) : bool :=
  let n := nat_of_ascii c in
  (n =? 32)%nat || ((9 <=? n)%nat && (n <=? 13)%nat).

Fixpoint trimStart (s : string) : string :=
  match s with
  | String c r => if isSpace c then trimStart r else s
  | EmptyString => s
  end.

(** The digits at the front of [s]: their value on top of [acc], how many
    there are on top of [cnt], and the rest of the text. *)
Fixpoint digitsPrefix (s : string) (acc cnt : Z) : Z * Z * string :=
  match s with
  | String c r =>
      if isDigit c
      then digitsPrefix r (acc * 10 + Z.of_nat (nat_of_ascii c - 48)) (cnt + 1)
      else (acc, cnt, s)
  | EmptyString => (acc, cnt, s)
  end.

Definition exponentPart (s : string) : Z :=
  match s with
  | String c r =>
      if (Ascii.eqb c "e"%char || Ascii.eqb c "E"%char)%bool then
        let '(neg, r') :=
          match r with
          | String "-"%char r' => (true, r')
          | String "+"%char r' => (false, r')
          | _ => (false, r)
          end in
        let '(v, cnt, _) := digitsPrefix r' 0 0 in
        if cnt =? 0 then 0 else if neg then - v else v
      else 0
  | EmptyString => 0
  end.

Definition parseUnsigned (s : string) : option number :=
  if String.prefix "Infinity" s then Some infinity
  else
    let '(ip, ic, r1) := digitsPrefix s 0 0 in
    let '(v, fc, r2) :=
      match r1 with
      | String "."%char r => digitsPrefix r ip 0
      | _ => (ip, 0, r1)
      end in
    if (ic =? 0) && (fc =? 0) then None
    else Some (ofQ (inject_Z v * pow10 (exponentPart r2 - fc))).

Definition parseFloat (s : string) : number :=
  match trimStart s with
  | String "-"%char r => default nan (opp <$> parseUnsigned r)
  | String "+"%char r => default nan (parseUnsigned r)
  | r => default nan (parseUnsigned r)
  end.

End JS.

Import JS.

(** ** The estimator (route module: [analyze3DModel], [formatPrintTime]) *)

(** The fields of an uploaded file the routes read. *)
Record MulterFile := {
  originalname : string;
  path : string;
  size : number;
}.

Module Analysis.
Record t := {
  weight : number;
  printTime : string;
  baseCost : number;
}.
End Analysis.

Section Estimator.
Local Open Scope float_scope.

Definition formatPrintTime (minutes : number) : string :=
  let hours := Math_floor (minutes / 60) in
  let mins := Math_floor (rem minutes 60) in
  toString hours +:+ "h " +:+ toString mins +:+ "m".

Definition fileSizeMB (file : MulterFile) : number :=
  size file / (1024 * 1024).

Definition estimatedWeight (fileSizeMB : number) : number :=
  if fileSizeMB <? 1 then Math_max 5 (fileSizeMB * 20)
  else if fileSizeMB <? 5 then 20 + (fileSizeMB - 1) * 15
  else 80 + (fileSizeMB - 5) * 10.

Definition printTimeMinutes (fileSizeMB : number) : number :=
  Math_max 30 (estimatedWeight fileSizeMB * 1.5 + fileSizeMB * 20).

Definition analyze3DModel (file : MulterFile) : Analysis.t :=
  let fileSizeMB := fileSizeMB file in
  let estimatedWeight := estimatedWeight fileSizeMB in
  let printTimeMinutes := printTimeMinutes fileSizeMB in
  {| Analysis.weight := parseFloat (toFixed estimatedWeight 2);
     Analysis.printTime := formatPrintTime printTimeMinutes;
     Analysis.baseCost := parseFloat (toFixed (estimatedWeight * 0.25) 2) |}.

End Estimator.

(** ** The order data model (shared/schema.ts) *)

(** A timestamp, in milliseconds since the epoch. *)
Definition Date := Z.

(** A row of the [orders] table ([typeof orders.$inferSelect]): the three
    [notNull] text columns are strings, every other column is nullable. *)
Module Order.
Record t := {
  id : string;
  customerName : string;
  customerPhone : string;
  deliveryMethod : string;
  streetAddress : option string;
  city : option string;
  state : option string;
  zipCode : option string;
  modelFileName : option string;
  modelWeight : option string;
  printTime : option string;
  baseCost : option string;
  supportRemoval : option bool;
  supportCost : option string;
  totalCost : option string;
  status : option string;
  createdAt : option Date;
  updatedAt : option Date;
}.
End Order.

(** The value [insertOrderSchema] produces.  [None] is an absent
    ([undefined]) property.  The schema always fills [supportRemoval] and
    [supportCost]; they are optional here because the store guards them
    with [||] all the same. *)
Module InsertOrder.
Record t := {
  customerName : string;
  customerPhone : string;
  deliveryMethod : string;
  streetAddress : option string;
  city : option string;
  state : option string;
  zipCode : option string;
  modelFileName : option string;
  modelWeight : option string;
  printTime : option string;
  baseCost : option string;
  supportRemoval : option bool;
  supportCost : option string;
  totalCost : option string;
  status : option string;
}.
End InsertOrder.

(** [Partial<Order>]: [None] is a property the object does not have, [Some v]
    a property present with value [v] (for a nullable column, [Some None] is
    a property set to [null]). *)
Module PartialOrder.
Record t := {
  id : option string;
  customerName : option string;
  customerPhone : option string;
  deliveryMethod : option string;
  streetAddress : option (option string);
  city : option (option string);
  state : option (option string);
  zipCode : option (option string);
  modelFileName : option (option string);
  modelWeight : option (option string);
  printTime : option (option string);
  baseCost : option (option string);
  supportRemoval : option (option bool);
  supportCost : option (option string);
  totalCost : option (option string);
  status : option (option string);
  createdAt : option (option Date);
  updatedAt : option (option Date);
}.

(** The patch [{}]. *)
Definition empty : t :=
  {| id := None; customerName := None; customerPhone := None;
     deliveryMethod := None; streetAddress := None; city := None;
     state := None; zipCode := None; modelFileName := None;
     modelWeight := None; printTime := None; baseCost := None;
     supportRemoval := None; supportCost := None; totalCost := None;
     status := None; createdAt := None; updatedAt := None |}.
End PartialOrder.

(** The text fields of a multipart request body ([req.body]) that the
    schema or the route reads, each sent once or not at all. *)
Module Body.
Record t := {
  customerName : option string;
  customerPhone : option string;
  deliveryMethod : option string;
  streetAddress : option string;
  city : option string;
  state : option string;
  zipCode : option string;
  modelFileName : option string;
  modelWeight : option string;
  printTime : option string;
  baseCost : option string;
  supportRemoval : option string;
  supportCost : option string;
  totalCost : option string;
  status : option string;
}.
End Body.

(** *** Truthiness and [||] on optional strings and booleans *)

Definition truthy (v : option string) : bool :=
  match v with
  | Some s => negb (String.eqb s "")
  | None => false
  end.

(** [v || null] *)
Definition orNull (v : option string) : option string :=
  if truthy v then v else None.

(** [v || d] *)
Definition orElse (v : option string) (d : string) : string :=
  match v with
  | Some s => if String.eqb s "" then d else s
  | None => d
  end.

(** [v || false] *)
Definition orFalse (v : option bool) : bool :=
  match v with
  | Some b => b
  | None => false
  end.

(** ** The in-memory store (server/storage.ts) *)

Record MemStorage := { orders : gmap string Order.t }.

Definition emptyStorage : MemStorage := {| orders := ∅ |}.

Definition getOrder (this : MemStorage) (id : string) : option Order.t :=
  orders this !! id.

(** [id] is the value [randomUUID()] returns and [now] the value of
    [new Date()] during the call. *)
Definition createOrder (this : MemStorage) (id : string) (now : Date)
    (insertOrder : InsertOrder.t) : Order.t * MemStorage :=
  let order :=
    {| Order.id := id;
       Order.customerName := InsertOrder.customerName insertOrder;
       Order.customerPhone := InsertOrder.customerPhone insertOrder;
       Order.deliveryMethod := InsertOrder.deliveryMethod insertOrder;
       Order.streetAddress := orNull (InsertOrder.streetAddress insertOrder);
       Order.city := orNull (InsertOrder.city insertOrder);
       Order.state := orNull (InsertOrder.state insertOrder);
       Order.zipCode := orNull (InsertOrder.zipCode insertOrder);
       Order.modelFileName := orNull (InsertOrder.modelFileName insertOrder);
       Order.modelWeight := orNull (InsertOrder.modelWeight insertOrder);
       Order.printTime := orNull (InsertOrder.printTime insertOrder);
       Order.baseCost := orNull (InsertOrder.baseCost insertOrder);
       Order.supportRemoval := Some (orFalse (InsertOrder.supportRemoval insertOrder));
       Order.supportCost := Some (orElse (InsertOrder.supportCost insertOrder) "0.00");
       Order.totalCost := orNull (InsertOrder.totalCost insertOrder);
       Order.status := Some "pending";
       Order.createdAt := Some now;
       Order.updatedAt := Some now |} in
  (order, {| orders := <[id := order]> (orders this) |}).

(** The object spread [{...existingOrder, ...updates, updatedAt: now}]. *)
Definition mergeOrder (existingOrder : Order.t) (updates : PartialOrder.t)
    (now : Date) : Order.t :=
  {| Order.id := default (Order.id existingOrder) (PartialOrder.id updates);
     Order.customerName :=
       default (Order.customerName existingOrder) (PartialOrder.customerName updates);
     Order.customerPhone :=
       default (Order.customerPhone existingOrder) (PartialOrder.customerPhone updates);
     Order.deliveryMethod :=
       default (Order.deliveryMethod existingOrder) (PartialOrder.deliveryMethod updates);
     Order.streetAddress :=
       default (Order.streetAddress existingOrder) (PartialOrder.streetAddress updates);
     Order.city := default (Order.city existingOrder) (PartialOrder.city updates);
     Order.state := default (Order.state existingOrder) (PartialOrder.state updates);
     Order.zipCode := default (Order.zipCode existingOrder) (PartialOrder.zipCode updates);
     Order.modelFileName :=
       default (Order.modelFileName existingOrder) (PartialOrder.modelFileName updates);
     Order.modelWeight :=
       default (Order.modelWeight existingOrder) (PartialOrder.modelWeight updates);
     Order.printTime :=
       default (Order.printTime existingOrder) (PartialOrder.printTime updates);
     Order.baseCost := default (Order.baseCost existingOrder) (PartialOrder.baseCost updates);
     Order.supportRemoval :=
       default (Order.supportRemoval existingOrder) (PartialOrder.supportRemoval updates);
     Order.supportCost :=
       default (Order.supportCost existingOrder) (PartialOrder.supportCost updates);
     Order.totalCost :=
       default (Order.totalCost existingOrder) (PartialOrder.totalCost updates);
     Order.status := default (Order.status existingOrder) (PartialOrder.status updates);
     Order.createdAt :=
       default (Order.createdAt existingOrder) (PartialOrder.createdAt updates);
     Order.updatedAt := Some now |}.

Definition updateOrder (this : MemStorage) (now : Date) (id : string)
    (updates : PartialOrder.t) : option Order.t * MemStorage :=
  match orders this !! id with
  | None => (None, this)
  | Some existingOrder =>
      let updatedOrder := mergeOrder existingOrder updates now in
      (Some updatedOrder, {| orders := <[id := updatedOrder]> (orders this) |})
  end.

(** [Array.from(this.orders.values())], up to the order of the entries. *)
Definition getAllOrders (this : MemStorage) : list Order.t :=
  (map_to_list (orders this)).*2.

(** ** Validation schemas *)

(** One entry of a [ZodError]: a missing required property, a string below
    its minimal length (with the schema's message), or a value outside an
    enum. *)
Inductive ZodIssue :=
  | Required (field : string)
  | TooSmall (field message : string)
  | InvalidEnumValue (field received : string).

(** [z.string().min(n, message)] on a required property. *)
Definition zStringMin (field : string) (n : nat) (message : string)
    (v : option string) : list ZodIssue :=
  match v with
  | None => [Required field]
  | Some s => if (String.length s <? n)%nat then [TooSmall field message] else []
  end.

(** [z.enum(["delivery", "meetup"])] *)
Definition zDeliveryMethod (field : string) (v : option string) : list ZodIssue :=
  match v with
  | None => [Required field]
  | Some s => if String.eqb s "delivery" || String.eqb s "meetup" then []
              else [InvalidEnumValue field s]
  end.

(** [insertOrderSchema.parse({...orderData, supportRemoval})] (shared/schema.ts):
    the issues of every field in schema order, or the parsed value with the
    default of [supportCost] filled in.  The optional text columns accept
    any string. *)
Definition insertOrderSchema_parse (orderData : Body.t) (supportRemoval : bool)
    : list ZodIssue + InsertOrder.t :=
  let issues :=
    zStringMin "customerName" 1 "Customer name is required" (Body.customerName orderData)
    ++ zStringMin "customerPhone" 10 "Valid phone number is required"
         (Body.customerPhone orderData)
    ++ zDeliveryMethod "deliveryMethod" (Body.deliveryMethod orderData) in
  match issues, Body.customerName orderData, Body.customerPhone orderData,
        Body.deliveryMethod orderData with
  | [], Some name, Some phone, Some method =>
      inr {| InsertOrder.customerName := name;
             InsertOrder.customerPhone := phone;
             InsertOrder.deliveryMethod := method;
             InsertOrder.streetAddress := Body.streetAddress orderData;
             InsertOrder.city := Body.city orderData;
             InsertOrder.state := Body.state orderData;
             InsertOrder.zipCode := Body.zipCode orderData;
             InsertOrder.modelFileName := Body.modelFileName orderData;
             InsertOrder.modelWeight := Body.modelWeight orderData;
             InsertOrder.printTime := Body.printTime orderData;
             InsertOrder.baseCost := Body.baseCost orderData;
             InsertOrder.supportRemoval := Some supportRemoval;
             InsertOrder.supportCost :=
               Some (default "0.00" (Body.supportCost orderData));
             InsertOrder.totalCost := Body.totalCost orderData;
             InsertOrder.status := Body.status orderData |}
  | _, _, _, _ => inl issues
  end.

(** The values of the client form ([OrderFormData] before validation). *)
Module OrderForm.
Record t := {
  customerName : option string;
  customerPhone : option string;
  deliveryMethod : option string;
  streetAddress : option string;
  city : option string;
  state : option string;
  zipCode : option string;
  supportRemoval : option bool;
}.
End OrderForm.

(** The refinement of [orderFormSchema] (client/src/components/order-form.tsx):
    [data.streetAddress && data.zipCode] when the method is ["delivery"]. *)
Definition addressRule (data : OrderForm.t) : bool :=
  if bool_decide (OrderForm.deliveryMethod data = Some "delivery")
  then truthy (OrderForm.streetAddress data) && truthy (OrderForm.zipCode data)
  else true.

(** Whether [orderFormSchema] accepts the form values: the field checks of
    the object and its refinement. *)
Definition orderFormSchema_accepts (data : OrderForm.t) : bool :=
  match zStringMin "customerName" 1 "Customer name is required"
          (OrderForm.customerName data)
        ++ zStringMin "customerPhone" 10 "Valid phone number is required"
             (OrderForm.customerPhone data)
        ++ zDeliveryMethod "deliveryMethod" (OrderForm.deliveryMethod data) with
  | [] => addressRule data
  | _ => false
  end.

(** ** The routes ([registerRoutes]) *)

(** What awaiting a call of an outside collaborator ends in. *)
Inductive Outcome (A : Type) :=
  | Returned (value : A)
  | Thrown (error : string).
Arguments Returned {A} value.
Arguments Thrown {A} error.

Record Attachment := {
  filename : string;
  content : string;
  contentType : string;
}.

(** The message handed to the mail provider.  Its text is laid out from the
    fields of [order]. *)
Record EmailOptions := {
  from : string;
  to : string;
  subject : string;
  order : Order.t;
  attachments : list Attachment;
}.

(** What a request takes from outside the program: the identifier and the
    clock reading of the store's create, the sender address of the process
    environment, the upload directory, the content-type table and the mail
    provider. *)
Record Env := {
  randomUUID : string;
  now : Date;
  EMAIL_FROM : option string;
  readFileSync : string -> Outcome string;
  mime_lookup : string -> Outcome string;
  resend_emails_send : EmailOptions -> Outcome unit;
}.

Inductive LogLine :=
  | Log (label : string)
  | LogError (label : string).

(** The program state a request works on: the store singleton and the
    console. *)
Record World := {
  storage : MemStorage;
  console : list LogLine;
}.

Definition log (l : LogLine) (w : World) : World :=
  {| storage := storage w; console := console w ++ [l] |}.

(** The text of an error message: plain text, or the JSON text of the issue
    list of a [ZodError]. *)
Inductive Message :=
  | Text (text : string)
  | Issues (issues : list ZodIssue).

Inductive Json :=
  | JsonOrder (order : Order.t)
  | JsonAnalysis (analysis : Analysis.t)
  | JsonMessage (message : Message).

Record Response := { statusCode : Z; json : Json }.

Definition sendOrderEmail (env : Env) (order : Order.t)
    (modelFile : option MulterFile) : Outcome unit :=
  let emailOptions (attachments : list Attachment) :=
    {| from := orElse (EMAIL_FROM env) "noreply@example.com";
       to := "pointzero3dofficial@gmail.com";
       subject := "New 3D Printing Order - " +:+ Order.customerName order;
       order := order;
       attachments := attachments |} in
  match modelFile with
  | Some file =>
      match readFileSync env (path file) with
      | Returned content =>
          match mime_lookup env (path file) with
          | Returned contentType =>
              resend_emails_send env
                (emailOptions [{| filename := originalname file;
                                  content := content;
                                  contentType := contentType |}])
          | Thrown e => Thrown e
          end
      | Thrown e => Thrown e
      end
  | None => resend_emails_send env (emailOptions [])
  end.

(** The draft after the assignments the route makes to its model and price
    properties; the other properties stay as validated. *)
Definition assignEstimate (validatedOrder : InsertOrder.t)
    (modelFileName modelWeight printTime baseCost supportCost totalCost : option string)
    : InsertOrder.t :=
  {| InsertOrder.customerName := InsertOrder.customerName validatedOrder;
     InsertOrder.customerPhone := InsertOrder.customerPhone validatedOrder;
     InsertOrder.deliveryMethod := InsertOrder.deliveryMethod validatedOrder;
     InsertOrder.streetAddress := InsertOrder.streetAddress validatedOrder;
     InsertOrder.city := InsertOrder.city validatedOrder;
     InsertOrder.state := InsertOrder.state validatedOrder;
     InsertOrder.zipCode := InsertOrder.zipCode validatedOrder;
     InsertOrder.modelFileName := modelFileName;
     InsertOrder.modelWeight := modelWeight;
     InsertOrder.printTime := printTime;
     InsertOrder.baseCost := baseCost;
     InsertOrder.supportRemoval := InsertOrder.supportRemoval validatedOrder;
     InsertOrder.supportCost := supportCost;
     InsertOrder.totalCost := totalCost;
     InsertOrder.status := InsertOrder.status validatedOrder |}.

(** Whether the request carries the client's own analysis:
    [orderData.modelWeight && orderData.printTime && orderData.baseCost]. *)
Definition hasFrontendAnalysis (orderData : Body.t) : bool :=
  truthy (Body.modelWeight orderData) && truthy (Body.printTime orderData)
  && truthy (Body.baseCost orderData).

(** The body of [if (modelFile) { ... }]: the file name is recorded, and the
    estimate is the client's when it sent weight, time and base cost, the
    estimator's otherwise.  The second component is the line logged. *)
Definition withModel (orderData : Body.t) (modelFile : MulterFile)
    (validatedOrder : InsertOrder.t) : InsertOrder.t * LogLine :=
  let supportRemoval := orFalse (InsertOrder.supportRemoval validatedOrder) in
  if hasFrontendAnalysis orderData then
    (assignEstimate validatedOrder
       (Some (originalname modelFile))
       (Body.modelWeight orderData)
       (Body.printTime orderData)
       (Body.baseCost orderData)
       (Some (orElse (Body.supportCost orderData)
                     (if supportRemoval then "5.00" else "0.00")))
       (Body.totalCost orderData),
     Log "Using frontend analysis data")
  else
    let analysis := analyze3DModel modelFile in
    let baseCost := Analysis.baseCost analysis in
    let supportCost := (if supportRemoval then 5 else 0)%float in
    let totalCost := (baseCost + supportCost)%float in
    (assignEstimate validatedOrder
       (Some (originalname modelFile))
       (Some (toString (Analysis.weight analysis)))
       (Some (Analysis.printTime analysis))
       (Some (toString (Analysis.baseCost analysis)))
       (Some (toString supportCost))
       (Some (toString totalCost)),
     Log "Using backend analysis fallback").

(** [POST /api/orders] *)
Definition postOrders (env : Env) (w : World) (orderData : Body.t)
    (modelFile : option MulterFile) : World * Response :=
  let w := log (Log "Full received order data:") w in
  match insertOrderSchema_parse orderData
          (bool_decide (Body.supportRemoval orderData = Some "true")) with
  | inl issues =>
      (log (LogError "Order creation error:") w,
       {| statusCode := 400; json := JsonMessage (Issues issues) |})
  | inr validatedOrder =>
      let '(validatedOrder, w) :=
        match modelFile with
        | Some file =>
            let w := log (Log "Received order data:") w in
            let '(v, line) := withModel orderData file validatedOrder in
            (v, log line w)
        | None => (validatedOrder, w)
        end in
      let '(order, storage') :=
        createOrder (storage w) (randomUUID env) (now env) validatedOrder in
      let w := {| storage := storage'; console := console w |} in
      let w :=
        match sendOrderEmail env order modelFile with
        | Returned _ => w
        | Thrown _ => log (LogError "Failed to send email:") w
        end in
      (w, {| statusCode := 200; json := JsonOrder order |})
  end.

(** [GET /api/orders/:id] *)
Definition getOrderById (w : World) (id : string) : World * Response :=
  match getOrder (storage w) id with
  | None => (w, {| statusCode := 404; json := JsonMessage (Text "Order not found") |})
  | Some order => (w, {| statusCode := 200; json := JsonOrder order |})
  end.

(** [POST /api/analyze-model] *)
Definition postAnalyzeModel (w : World) (file : option MulterFile) : World * Response :=
  match file with
  | None => (w, {| statusCode := 400; json := JsonMessage (Text "No file uploaded") |})
  | Some file => (w, {| statusCode := 200; json := JsonAnalysis (analyze3DModel file) |})
  end.

(** ** The upload filter ([fileFilter] of the multer configuration) *)

(** [toLowerCase] on the letters A to Z; every other character is left as
    it is. *)
Definition lowerChar (c : ascii) : ascii :=
  let n := nat_of_ascii c in
  if (65 <=? n)%nat && (n <=? 90)%nat then ascii_of_nat (n + 32) else c.

Fixpoint toLowerCase (s : string) : string :=
  match s with
  | EmptyString => EmptyString
  | String c r => String (lowerChar c) (toLowerCase r)
  end.

(** [s.lastIndexOf(c)]: the index of the last [c] in [s], or -1. *)
Fixpoint lastIndexOf (s : string) (c : ascii) : Z :=
  match s with
  | EmptyString => -1
  | String a r =>
      let i := lastIndexOf r c in
      if 0 <=? i then i + 1 else if Ascii.eqb a c then 0 else -1
  end.

(** [s.slice(start)]: a negative [start] counts from the end. *)
Definition slice (s : string) (start : Z) : string :=
  let len := Z.of_nat (String.length s) in
  let first := if start <? 0 then Z.max (len + start) 0 else Z.min start len in
  dropStr (Z.to_nat first) s.

Definition allowedTypes : list string := [".stl"; ".obj"; ".3mf"].

(** The callback of [fileFilter]: [cb(null, true)] or [cb(new Error(...))]. *)
Definition fileFilter (name : string) : Outcome bool :=
  let ext := slice (toLowerCase name) (lastIndexOf name ".") in
  if existsb (String.eqb ext) allowedTypes then Returned true
  else Thrown "Invalid file type. Only STL, OBJ, and 3MF files are allowed.".

(** ** The client form (client/src/components/order-form.tsx) *)

(** [OrderFormData]: the value [orderFormSchema] produces, with the default
    of [supportRemoval] filled in. *)
Module OrderFormData.
Record t := {
  customerName : string;
  customerPhone : string;
  deliveryMethod : string;
  streetAddress : option string;
  city : option string;
  state : option string;
  zipCode : option string;
  supportRemoval : bool;
}.
End OrderFormData.


(** The file the browser holds, and the file multer makes of it under the
    path it chose. *)
Module BrowserFile.
Record t := {
  name : string;
  size : number;
}.
End BrowserFile.

Definition received (storedAt : string) (file : BrowserFile.t) : MulterFile :=
  {| originalname := BrowserFile.name file;
     path := storedAt;
     size := BrowserFile.size file |}.




(** ** Requests in sequence *)

(** A request to one of the three routes, with what its handling takes from
    outside the program. *)
Inductive Request :=
  | PostOrders (env : Env) (orderData : Body.t) (modelFile : option MulterFile)
  | GetOrderById (id : string)
  | PostAnalyzeModel (file : option MulterFile).

Definition handle (w : World) (r : Request) : World * Response :=
  match r with
  | PostOrders env orderData modelFile => postOrders env w orderData modelFile
  | GetOrderById id => getOrderById w id
  | PostAnalyzeModel file => postAnalyzeModel w file
  end.

(** The program state after a sequence of requests. *)
Definition serve (w : World) (requests : list Request) : World :=
  fold_left (fun w r => (handle w r).1) requests w.

(** ** The image carousel (client/src/components/image-carousel.tsx) *)

(** The slide index is a whole number from 0 up to the number of images,
    and it is modelled as an integer. *)
Section Carousel.
Variable totalSlides : Z.

Definition nextSlide (prev : Z) : Z := (prev + 1) mod totalSlides.

Definition prevSlide (prev : Z) : Z :=
  if prev =? 0 then totalSlides - 1 else prev - 1.

Definition goToSlide (index : Z) : Z := index.

End Carousel.


(** * Properties *)

(** ** Comparisons of doubles *)

Lemma SFcompare_antisym (a b : spec_float) :
  SFcompare b a = option_map CompOpp (SFcompare a b).
Proof.
  destruct a as [sa|sa| |sa ma ea], b as [sb|sb| |sb mb eb]; simpl;
    try destruct sa; try destruct sb; simpl; try reflexivity.
  - rewrite (Z.compare_antisym ea eb).
    destruct (ea ?= eb); simpl; try reflexivity.
    change (Pos.compare_cont Eq mb ma) with (Pos.compare_cont (CompOpp Eq) mb ma).
    rewrite <- Pos.compare_cont_antisym.
    destruct (Pos.compare_cont Eq ma mb); reflexivity.
  - rewrite (Z.compare_antisym ea eb).
    destruct (ea ?= eb); simpl; try reflexivity.
    change (Pos.compare_cont Eq mb ma) with (Pos.compare_cont (CompOpp Eq) mb ma).
    rewrite <- Pos.compare_cont_antisym.
    destruct (Pos.compare_cont Eq ma mb); reflexivity.
Qed.

Lemma SFcompare_refl (a : spec_float) : a <> S754_nan -> SFcompare a a = Some Eq.
Proof.
  destruct a as [s|s| |s m e]; simpl; try congruence; destruct s; intros _;
    try reflexivity; rewrite Z.compare_refl, Pos.compare_cont_refl; reflexivity.
Qed.

Lemma SFcompare_total (a b : spec_float) :
  a <> S754_nan -> b <> S754_nan -> exists c, SFcompare a b = Some c.
Proof.
  destruct a as [sa|sa| |sa ma ea], b as [sb|sb| |sb mb eb]; simpl;
    try congruence; eauto.
Qed.

Lemma not_nan (x : number) : is_nan x = false -> Prim2SF x <> S754_nan.
Proof.
  unfold is_nan. rewrite FloatAxioms.eqb_spec. intros H E. rewrite E in H. discriminate.
Qed.


(** [a < b] gives [a <= b]. *)
Lemma ltb_leb (a b : number) :
  PrimFloat.ltb a b = true -> PrimFloat.leb a b = true.
Proof.
  rewrite leb_spec, ltb_spec. unfold SFleb, SFltb.
  destruct (SFcompare (Prim2SF a) (Prim2SF b)) as [[| |]|]; congruence.
Qed.

(** Of two numbers, neither NaN, one is below or equal to the other. *)
Lemma not_ltb_leb (a b : number) :
  is_nan a = false -> is_nan b = false ->
  PrimFloat.ltb a b = false -> PrimFloat.leb b a = true.
Proof.
  intros Ha%not_nan Hb%not_nan. rewrite leb_spec, ltb_spec. unfold SFleb, SFltb.
  rewrite (SFcompare_antisym (Prim2SF a) (Prim2SF b)).
  destruct (SFcompare_total _ _ Ha Hb) as [c ->].
  destruct c; simpl; congruence.
Qed.

Lemma leb_refl (a : number) : is_nan a = false -> PrimFloat.leb a a = true.
Proof.
  intros Ha%not_nan. rewrite leb_spec. unfold SFleb.
  rewrite (SFcompare_refl _ Ha). reflexivity.
Qed.

(** [Math.max] of two numbers, neither NaN, is one of them and is not below
    either. *)
Lemma Math_max_bounds (a b : number) :
  is_nan a = false -> is_nan b = false ->
  (Math_max a b = a \/ Math_max a b = b) /\
  PrimFloat.leb a (Math_max a b) = true /\
  PrimFloat.leb b (Math_max a b) = true.
Proof.
  intros Ha Hb. unfold Math_max. rewrite Ha, Hb. simpl.
  destruct (PrimFloat.ltb a b) eqn:Hab.
  - split; [right; reflexivity |]. split; [by apply ltb_leb | by apply leb_refl].
  - destruct (PrimFloat.ltb b a) eqn:Hba.
    + split; [left; reflexivity |]. split; [by apply leb_refl | by apply ltb_leb].
    + destruct (get_sign a).
      * split; [right; reflexivity |].
        split; [by apply not_ltb_leb | by apply leb_refl].
      * split; [left; reflexivity |].
        split; [by apply leb_refl | by apply not_ltb_leb].
Qed.

(** [Math.max] is NaN as soon as one argument is. *)
Lemma Math_max_not_nan (a b : number) :
  is_nan (Math_max a b) = false -> is_nan a = false /\ is_nan b = false.
Proof.
  unfold Math_max.
  destruct (is_nan a); [discriminate|]. destruct (is_nan b); [discriminate|].
  split; reflexivity.
Qed.

(** ** Lookups of unknown identifiers *)

(** C9: for an identifier the store does not hold, [getOrder] returns the
    store's not-found value ([undefined]) and [GET /api/orders/:id] answers
    404 with the message "Order not found", leaving the program state as it
    was. *)
Theorem unknown_id_not_found (w : World) (id : string) :
  orders (storage w) !! id = None ->
  getOrder (storage w) id = None /\
  getOrderById w id =
    (w, {| statusCode := 404; json := JsonMessage (Text "Order not found") |}).
Proof.
  intros Habsent. unfold getOrderById, getOrder. rewrite Habsent. split; reflexivity.
Qed.

Lemma unknown_id_not_found_witness :
  let w := {| storage := emptyStorage; console := [] |} in
  getOrder (storage w) "no-such-order" = None /\
  getOrderById w "no-such-order" =
    (w, {| statusCode := 404; json := JsonMessage (Text "Order not found") |}).
Proof.
  apply (unknown_id_not_found {| storage := emptyStorage; console := [] |}
           "no-such-order").
  reflexivity.
Defined.

(** ** The store *)

Lemma orNull_not_empty (v : option string) : orNull v <> Some "".
Proof.
  unfold orNull, truthy. destruct v as [s|]; [|discriminate].
  destruct (String.eqb_spec s ""); simpl; congruence.
Qed.

Lemma orNull_absent (v : option string) :
  v = None \/ v = Some "" -> orNull v = None.
Proof. intros [-> | ->]; reflexivity. Qed.

Lemma orNull_given (s : string) : s <> "" -> orNull (Some s) = Some s.
Proof.
  intros Hs. unfold orNull, truthy.
  destruct (String.eqb_spec s ""); [contradiction | reflexivity].
Qed.

Lemma orElse_given (s d : string) : s <> "" -> orElse (Some s) d = s.
Proof.
  intros Hs. unfold orElse. destruct (String.eqb_spec s ""); [contradiction | reflexivity].
Qed.

(** The nullable text columns of a record that [createOrder] fills with
    [|| null], and the properties of the draft they are filled from. *)
Definition optionalTexts (o : Order.t) : list (option string) :=
  [Order.streetAddress o; Order.city o; Order.state o; Order.zipCode o;
   Order.modelFileName o; Order.modelWeight o; Order.printTime o;
   Order.baseCost o; Order.totalCost o].

Definition draftTexts (d : InsertOrder.t) : list (option string) :=
  [InsertOrder.streetAddress d; InsertOrder.city d; InsertOrder.state d;
   InsertOrder.zipCode d; InsertOrder.modelFileName d; InsertOrder.modelWeight d;
   InsertOrder.printTime d; InsertOrder.baseCost d; InsertOrder.totalCost d].

(** C4: a record that [createOrder] returns is the one [getOrder] finds
    under its identifier afterwards; it carries the draft's required fields,
    null in every optional text field the draft left out, the defaults of
    the support fields, the status "pending" and one timestamp as both
    creation and update time. *)
Theorem create_then_get (this : MemStorage) (id : string) (now : Date)
    (draft : InsertOrder.t) :
  let order := (createOrder this id now draft).1 in
  let this' := (createOrder this id now draft).2 in
  getOrder this' (Order.id order) = Some order /\
  Order.id order = id /\
  Order.customerName order = InsertOrder.customerName draft /\
  Order.customerPhone order = InsertOrder.customerPhone draft /\
  Order.deliveryMethod order = InsertOrder.deliveryMethod draft /\
  Forall2 (fun given stored => given = None -> stored = None)
          (draftTexts draft) (optionalTexts order) /\
  Forall2 (fun given stored => forall s, given = Some s -> s <> "" -> stored = Some s)
          (draftTexts draft) (optionalTexts order) /\
  (InsertOrder.supportRemoval draft = None -> Order.supportRemoval order = Some false) /\
  (InsertOrder.supportCost draft = None -> Order.supportCost order = Some "0.00") /\
  Order.status order = Some "pending" /\
  Order.createdAt order = Some now /\
  Order.createdAt order = Order.updatedAt order.
Proof.
  simpl. unfold getOrder. simpl. rewrite lookup_insert_eq.
  repeat split; try reflexivity.
  - unfold draftTexts, optionalTexts; simpl.
    repeat constructor; intros ->; reflexivity.
  - unfold draftTexts, optionalTexts; simpl.
    repeat constructor; intros s -> Hs; by apply orNull_given.
  - intros ->; reflexivity.
  - intros ->; reflexivity.
Qed.

(** C10: in a record that [createOrder] returns no optional text field is
    the empty string: a field absent or empty in the draft is null, the
    support cost is "0.00" when absent or empty, the support flag is false
    when absent, and the status is "pending" whatever the draft says. *)
Theorem create_defaults (this : MemStorage) (id : string) (now : Date)
    (draft : InsertOrder.t) :
  let order := (createOrder this id now draft).1 in
  Forall (fun stored => stored <> Some "") (optionalTexts order) /\
  Forall2 (fun given stored => given = None \/ given = Some "" -> stored = None)
          (draftTexts draft) (optionalTexts order) /\
  Order.supportCost order <> Some "" /\
  (InsertOrder.supportCost draft = None \/ InsertOrder.supportCost draft = Some "" ->
   Order.supportCost order = Some "0.00") /\
  (InsertOrder.supportRemoval draft = None -> Order.supportRemoval order = Some false) /\
  Order.status order = Some "pending".
Proof.
  simpl. unfold draftTexts, optionalTexts; simpl. repeat split.
  - repeat constructor; apply orNull_not_empty.
  - repeat constructor; apply orNull_absent.
  - unfold orElse. destruct (InsertOrder.supportCost draft) as [s|]; [|discriminate].
    destruct (String.eqb_spec s ""); [discriminate | congruence].
  - intros [-> | ->]; reflexivity.
  - intros ->; reflexivity.
Qed.

(** *** Fields of a record, by name *)

Inductive Field :=
  | Fid | FcustomerName | FcustomerPhone | FdeliveryMethod
  | FstreetAddress | Fcity | Fstate | FzipCode
  | FmodelFileName | FmodelWeight | FprintTime | FbaseCost
  | FsupportRemoval | FsupportCost | FtotalCost | Fstatus
  | FcreatedAt | FupdatedAt.

Inductive Value :=
  | VText (s : string)
  | VNullableText (s : option string)
  | VNullableBool (b : option bool)
  | VNullableDate (d : option Date).

(** The value of a field of a record. *)
Definition field (f : Field) (o : Order.t) : Value :=
  match f with
  | Fid => VText (Order.id o)
  | FcustomerName => VText (Order.customerName o)
  | FcustomerPhone => VText (Order.customerPhone o)
  | FdeliveryMethod => VText (Order.deliveryMethod o)
  | FstreetAddress => VNullableText (Order.streetAddress o)
  | Fcity => VNullableText (Order.city o)
  | Fstate => VNullableText (Order.state o)
  | FzipCode => VNullableText (Order.zipCode o)
  | FmodelFileName => VNullableText (Order.modelFileName o)
  | FmodelWeight => VNullableText (Order.modelWeight o)
  | FprintTime => VNullableText (Order.printTime o)
  | FbaseCost => VNullableText (Order.baseCost o)
  | FsupportRemoval => VNullableBool (Order.supportRemoval o)
  | FsupportCost => VNullableText (Order.supportCost o)
  | FtotalCost => VNullableText (Order.totalCost o)
  | Fstatus => VNullableText (Order.status o)
  | FcreatedAt => VNullableDate (Order.createdAt o)
  | FupdatedAt => VNullableDate (Order.updatedAt o)
  end.

(** The value a patch gives a field, if it names the field. *)
Definition given (f : Field) (p : PartialOrder.t) : option Value :=
  match f with
  | Fid => VText <$> PartialOrder.id p
  | FcustomerName => VText <$> PartialOrder.customerName p
  | FcustomerPhone => VText <$> PartialOrder.customerPhone p
  | FdeliveryMethod => VText <$> PartialOrder.deliveryMethod p
  | FstreetAddress => VNullableText <$> PartialOrder.streetAddress p
  | Fcity => VNullableText <$> PartialOrder.city p
  | Fstate => VNullableText <$> PartialOrder.state p
  | FzipCode => VNullableText <$> PartialOrder.zipCode p
  | FmodelFileName => VNullableText <$> PartialOrder.modelFileName p
  | FmodelWeight => VNullableText <$> PartialOrder.modelWeight p
  | FprintTime => VNullableText <$> PartialOrder.printTime p
  | FbaseCost => VNullableText <$> PartialOrder.baseCost p
  | FsupportRemoval => VNullableBool <$> PartialOrder.supportRemoval p
  | FsupportCost => VNullableText <$> PartialOrder.supportCost p
  | FtotalCost => VNullableText <$> PartialOrder.totalCost p
  | Fstatus => VNullableText <$> PartialOrder.status p
  | FcreatedAt => VNullableDate <$> PartialOrder.createdAt p
  | FupdatedAt => VNullableDate <$> PartialOrder.updatedAt p
  end.

Lemma mergeOrder_field (existing : Order.t) (patch : PartialOrder.t) (now : Date)
    (f : Field) :
  f <> FupdatedAt ->
  field f (mergeOrder existing patch now) = default (field f existing) (given f patch).
Proof.
  intros Hf. destruct f; try contradiction; simpl;
    match goal with |- context [default _ ?p] => destruct p end; reflexivity.
Qed.

(** C8: on a stored identifier [updateOrder] returns the merged record and
    stores it under that identifier: every field the patch names has the
    patch's value, every field it does not name keeps its stored value, and
    [updatedAt] is the time of the call; no other entry of the store
    changes.  On an identifier the store does not hold it returns the
    not-found value and leaves the store as it was. *)
Theorem update_merges_patch (this : MemStorage) (now : Date) (id : string)
    (patch : PartialOrder.t) :
  match getOrder this id with
  | Some existing =>
      exists merged,
        updateOrder this now id patch =
          (Some merged, {| orders := <[id := merged]> (orders this) |}) /\
        getOrder (updateOrder this now id patch).2 id = Some merged /\
        (forall f v, f <> FupdatedAt -> given f patch = Some v -> field f merged = v) /\
        (forall f, f <> FupdatedAt -> given f patch = None ->
                   field f merged = field f existing) /\
        Order.updatedAt merged = Some now /\
        (forall other, other <> id ->
                       getOrder (updateOrder this now id patch).2 other = getOrder this other)
  | None => updateOrder this now id patch = (None, this)
  end.
Proof.
  unfold getOrder, updateOrder.
  destruct (orders this !! id) as [existing|] eqn:Hlook; [|reflexivity].
  exists (mergeOrder existing patch now). simpl. repeat split.
  - apply lookup_insert_eq.
  - intros f v Hf Hv. rewrite mergeOrder_field, Hv by assumption. reflexivity.
  - intros f Hf Hv. rewrite mergeOrder_field, Hv by assumption. reflexivity.
  - intros other Hother. by apply lookup_insert_ne.
Qed.

(** *** Identifiers under updates *)

(** A call [updateOrder(id, updates)] together with the clock reading it
    takes. *)
Record UpdateCall := {
  at_ : Date;
  target : string;
  updates : PartialOrder.t;
}.

(** The store after a sequence of [updateOrder] calls. *)
Definition runUpdates (this : MemStorage) (calls : list UpdateCall) : MemStorage :=
  fold_left (fun st c => (updateOrder st (at_ c) (target c) (updates c)).2) calls this.

(** A patch that leaves the identifier alone: it does not name [id], or
    names it with the identifier the call is made for. *)
Definition keepsId (c : UpdateCall) : Prop :=
  PartialOrder.id (updates c) = None \/ PartialOrder.id (updates c) = Some (target c).

Definition sampleDraft : InsertOrder.t :=
  {| InsertOrder.customerName := "Ada";
     InsertOrder.customerPhone := "5551234567";
     InsertOrder.deliveryMethod := "meetup";
     InsertOrder.streetAddress := None; InsertOrder.city := None;
     InsertOrder.state := None; InsertOrder.zipCode := None;
     InsertOrder.modelFileName := None; InsertOrder.modelWeight := None;
     InsertOrder.printTime := None; InsertOrder.baseCost := None;
     InsertOrder.supportRemoval := Some false;
     InsertOrder.supportCost := Some "0.00";
     InsertOrder.totalCost := None; InsertOrder.status := None |}.

(** A patch naming only the identifier. *)
Definition renameTo (id : string) : PartialOrder.t :=
  {| PartialOrder.id := Some id;
     PartialOrder.customerName := None; PartialOrder.customerPhone := None;
     PartialOrder.deliveryMethod := None; PartialOrder.streetAddress := None;
     PartialOrder.city := None; PartialOrder.state := None;
     PartialOrder.zipCode := None; PartialOrder.modelFileName := None;
     PartialOrder.modelWeight := None; PartialOrder.printTime := None;
     PartialOrder.baseCost := None; PartialOrder.supportRemoval := None;
     PartialOrder.supportCost := None; PartialOrder.totalCost := None;
     PartialOrder.status := None; PartialOrder.createdAt := None;
     PartialOrder.updatedAt := None |}.

(** A patch that names [id] is merged like any other field: after creating
    an order under "order-1" and updating it with [{id: "order-2"}], the
    record found under "order-1" no longer has "order-1" as its identifier. *)
Lemma update_can_rename :
  let created := (createOrder emptyStorage "order-1" 1000 sampleDraft).2 in
  let after := runUpdates created
                 [{| at_ := 2000; target := "order-1"; updates := renameTo "order-2" |}] in
  (exists o, getOrder created "order-1" = Some o /\ Order.id o = "order-1") /\
  (exists o', getOrder after "order-1" = Some o' /\ Order.id o' = "order-2"
              /\ Order.id o' <> "order-1").
Proof.
  split.
  - eexists; split; [vm_compute; reflexivity | reflexivity].
  - eexists; split; [vm_compute; reflexivity | split; [reflexivity | discriminate]].
Qed.

Lemma updateOrder_other (this : MemStorage) (now : Date) (id other : string)
    (patch : PartialOrder.t) :
  other <> id -> getOrder (updateOrder this now id patch).2 other = getOrder this other.
Proof.
  intros Hne. unfold updateOrder, getOrder.
  destruct (orders this !! id); simpl; [by apply lookup_insert_ne | reflexivity].
Qed.

Lemma updateOrder_keeps_id (this : MemStorage) (c : UpdateCall) (id : string)
    (o : Order.t) :
  keepsId c ->
  getOrder this id = Some o -> Order.id o = id ->
  exists o', getOrder (updateOrder this (at_ c) (target c) (updates c)).2 id = Some o'
             /\ Order.id o' = id.
Proof.
  intros Hkeep Hget Hid.
  destruct (decide (id = target c)) as [-> | Hne].
  - unfold updateOrder, getOrder in *. rewrite Hget. simpl.
    eexists; split; [apply lookup_insert_eq |]. simpl.
    destruct Hkeep as [-> | ->]; simpl; congruence.
  - exists o. by rewrite updateOrder_other.
Qed.

(** C6, as the store has it: the record found under an identifier keeps
    that identifier as its [id] field through every sequence of
    [updateOrder] calls, on any identifiers, whose patches do not name [id]
    with another value. *)
Theorem identifier_kept_by_updates (calls : list UpdateCall) (this : MemStorage)
    (id : string) (o : Order.t) :
  Forall keepsId calls ->
  getOrder this id = Some o -> Order.id o = id ->
  exists o', getOrder (runUpdates this calls) id = Some o' /\ Order.id o' = id.
Proof.
  intros Hcalls. revert this o.
  induction Hcalls as [|c calls Hc _ IH]; intros this o Hget Hid.
  - exists o. split; assumption.
  - destruct (updateOrder_keeps_id this c id o Hc Hget Hid) as (o1 & Hget1 & Hid1).
    exact (IH _ o1 Hget1 Hid1).
Qed.

Lemma identifier_kept_by_updates_witness :
  let created := (createOrder emptyStorage "order-1" 1000 sampleDraft).2 in
  let calls := [{| at_ := 2000; target := "order-1"; updates := PartialOrder.empty |};
                {| at_ := 3000; target := "order-1"; updates := renameTo "order-1" |}] in
  exists o', getOrder (runUpdates created calls) "order-1" = Some o'
             /\ Order.id o' = "order-1".
Proof.
  eapply (identifier_kept_by_updates _ _ "order-1").
  - constructor; [left; reflexivity |].
    constructor; [right; reflexivity | constructor].
  - vm_compute. reflexivity.
  - reflexivity.
Defined.

(** ** Decimal text of numbers *)

Lemma append_empty (a b : string) : a +:+ b = "" -> a = "" /\ b = "".
Proof.
  destruct a; simpl; [intros H; split; [reflexivity | exact H] | discriminate].
Qed.

Lemma digitsOfZ_nonempty (z : Z) : digitsOfZ z <> "".
Proof.
  unfold digitsOfZ. destruct (N.to_uint (Z.to_N z)); simpl; discriminate.
Qed.

Ltac empty_text H :=
  repeat (apply append_empty in H; destruct H as [? H]);
  first [discriminate | eapply digitsOfZ_nonempty; eassumption].

Lemma formatDigits_nonempty (s n k : Z) : formatDigits s n k <> "".
Proof.
  unfold formatDigits. intros H.
  repeat match type of H with
         | context [if ?c then _ else _] => destruct c
         end; empty_text H.
Qed.

Lemma toStringPos_nonempty (x : number) : toStringPos x <> "".
Proof.
  unfold toStringPos. destruct (toQ x); [|discriminate].
  destruct (shortest x q) as [[s n] k]. apply formatDigits_nonempty.
Qed.

(** A number never prints as the empty string. *)
Lemma toString_nonempty (x : number) : toString x <> "".
Proof.
  unfold toString.
  destruct (is_nan x); [discriminate|].
  destruct (is_zero x); [discriminate|].
  destruct (PrimFloat.ltb x PrimFloat.zero); [discriminate|].
  apply toStringPos_nonempty.
Qed.

Lemma orNull_toString (x : number) : orNull (Some (toString x)) = Some (toString x).
Proof. apply orNull_given, toString_nonempty. Qed.

(** ** Order submission *)

(** The draft [POST /api/orders] hands to the store once validation has
    produced [validatedOrder]. *)
Definition submittedDraft (orderData : Body.t) (modelFile : option MulterFile)
    (validatedOrder : InsertOrder.t) : InsertOrder.t :=
  match modelFile with
  | Some file => (withModel orderData file validatedOrder).1
  | None => validatedOrder
  end.

Definition supportRequested (orderData : Body.t) : bool :=
  bool_decide (Body.supportRemoval orderData = Some "true").

Arguments sendOrderEmail : simpl never.
Arguments orElse : simpl never.
Arguments orNull : simpl never.

Ltac case_mail :=
  match goal with
  | |- context [sendOrderEmail ?e ?o ?f] => destruct (sendOrderEmail e o f)
  end.

Section Submission.
Context (env : Env) (w : World) (orderData : Body.t) (modelFile : option MulterFile).

Let result := postOrders env w orderData modelFile.

(** A request that passes validation is answered with the record the store
    created, and the store afterwards is the store of that create. *)
Lemma postOrders_accepted (validatedOrder : InsertOrder.t) :
  insertOrderSchema_parse orderData (supportRequested orderData) = inr validatedOrder ->
  let created := createOrder (storage w) (randomUUID env) (now env)
                   (submittedDraft orderData modelFile validatedOrder) in
  result.2 = {| statusCode := 200; json := JsonOrder created.1 |} /\
  storage result.1 = created.2.
Proof.
  intros Hparse. subst result. unfold postOrders, supportRequested in *.
  rewrite Hparse. unfold submittedDraft.
  destruct modelFile as [file|]; simpl.
  - destruct (withModel orderData file validatedOrder) as [v line]; simpl.
    case_mail; split; reflexivity.
  - case_mail; split; reflexivity.
Qed.

(** A request that fails validation is answered 400 with the issues, and the
    store is not touched. *)
Lemma postOrders_rejected (issues : list ZodIssue) :
  insertOrderSchema_parse orderData (supportRequested orderData) = inl issues ->
  result.2 = {| statusCode := 400; json := JsonMessage (Issues issues) |} /\
  storage result.1 = storage w.
Proof.
  intros Hparse. subst result. unfold postOrders, supportRequested in *.
  rewrite Hparse. split; reflexivity.
Qed.

(** What the console shows after a request whose mail could not be sent. *)
Lemma postOrders_mail_failure_logged (validatedOrder : InsertOrder.t) (e : string) :
  insertOrderSchema_parse orderData (supportRequested orderData) = inr validatedOrder ->
  sendOrderEmail env
    (createOrder (storage w) (randomUUID env) (now env)
       (submittedDraft orderData modelFile validatedOrder)).1 modelFile = Thrown e ->
  last (console result.1) = Some (LogError "Failed to send email:").
Proof.
  intros Hparse Hmail. subst result. unfold postOrders, supportRequested in *.
  rewrite Hparse. unfold submittedDraft in Hmail.
  destruct modelFile as [file|]; simpl in *.
  - destruct (withModel orderData file validatedOrder) as [v line]; simpl in *.
    rewrite Hmail. simpl. apply last_snoc.
  - rewrite Hmail. simpl. apply last_snoc.
Qed.

End Submission.

(** *** What validation lets through *)

(** The parsed value, field by field. *)
Lemma insertOrderSchema_parse_inr (orderData : Body.t) (supportRemoval : bool)
    (v : InsertOrder.t) :
  insertOrderSchema_parse orderData supportRemoval = inr v ->
  Body.customerName orderData = Some (InsertOrder.customerName v) /\
  Body.customerPhone orderData = Some (InsertOrder.customerPhone v) /\
  Body.deliveryMethod orderData = Some (InsertOrder.deliveryMethod v) /\
  InsertOrder.streetAddress v = Body.streetAddress orderData /\
  InsertOrder.zipCode v = Body.zipCode orderData /\
  InsertOrder.supportRemoval v = Some supportRemoval.
Proof.
  unfold insertOrderSchema_parse.
  destruct (_ ++ _); [|discriminate].
  destruct (Body.customerName orderData); [|discriminate].
  destruct (Body.customerPhone orderData); [|discriminate].
  destruct (Body.deliveryMethod orderData); [|discriminate].
  intros [= <-]. simpl. repeat split; reflexivity.
Qed.

(** The server schema accepts a body exactly when the name is not empty,
    the phone number has ten characters or more and the delivery method is
    one of the two the enum lists: no address field takes part. *)
Lemma insertOrderSchema_accepts_iff (orderData : Body.t) (supportRemoval : bool) :
  (exists v, insertOrderSchema_parse orderData supportRemoval = inr v) <->
  (exists name phone method,
     Body.customerName orderData = Some name /\ (1 <= String.length name)%nat /\
     Body.customerPhone orderData = Some phone /\ (10 <= String.length phone)%nat /\
     Body.deliveryMethod orderData = Some method /\
     (method = "delivery" \/ method = "meetup")).
Proof.
  unfold insertOrderSchema_parse, zStringMin, zDeliveryMethod. split.
  - intros [v Hv].
    destruct (Body.customerName orderData) as [name|]; [|discriminate].
    destruct (Body.customerPhone orderData) as [phone|];
      [|destruct (_ <? _)%nat; discriminate].
    destruct (Body.deliveryMethod orderData) as [method|];
      [|repeat destruct (_ <? _)%nat; discriminate].
    exists name, phone, method.
    destruct (Nat.ltb_spec (String.length name) 1); [discriminate|].
    destruct (Nat.ltb_spec (String.length phone) 10); [discriminate|].
    destruct (String.eqb_spec method "delivery"); [auto 10|].
    destruct (String.eqb_spec method "meetup"); [auto 10 | discriminate].
  - intros (name & phone & method & -> & Hn & -> & Hp & -> & Hm).
    destruct (Nat.ltb_spec (String.length name) 1); [lia|].
    destruct (Nat.ltb_spec (String.length phone) 10); [lia|].
    destruct Hm as [-> | ->]; simpl; eexists; reflexivity.
Qed.

(** *** Sample requests *)

(** A body with the three required fields and nothing else. *)
Definition bodyOf (deliveryMethod : string) : Body.t :=
  {| Body.customerName := Some "Ada";
     Body.customerPhone := Some "5551234567";
     Body.deliveryMethod := Some deliveryMethod;
     Body.streetAddress := None; Body.city := None; Body.state := None;
     Body.zipCode := None; Body.modelFileName := None; Body.modelWeight := None;
     Body.printTime := None; Body.baseCost := None; Body.supportRemoval := None;
     Body.supportCost := None; Body.totalCost := None; Body.status := None |}.

(** The same body with an empty street address, as the form sends it. *)
Definition bodyWithEmptyStreet (deliveryMethod : string) : Body.t :=
  {| Body.customerName := Some "Ada";
     Body.customerPhone := Some "5551234567";
     Body.deliveryMethod := Some deliveryMethod;
     Body.streetAddress := Some ""; Body.city := None; Body.state := None;
     Body.zipCode := None; Body.modelFileName := None; Body.modelWeight := None;
     Body.printTime := None; Body.baseCost := None; Body.supportRemoval := None;
     Body.supportCost := None; Body.totalCost := None; Body.status := None |}.

(** A body asking for support removal, with or without the client's own
    figures. *)
Definition bodyWithSupport (modelWeight printTime baseCost totalCost : option string)
    : Body.t :=
  {| Body.customerName := Some "Ada";
     Body.customerPhone := Some "5551234567";
     Body.deliveryMethod := Some "meetup";
     Body.streetAddress := None; Body.city := None; Body.state := None;
     Body.zipCode := None; Body.modelFileName := None;
     Body.modelWeight := modelWeight; Body.printTime := printTime;
     Body.baseCost := baseCost; Body.supportRemoval := Some "true";
     Body.supportCost := None; Body.totalCost := totalCost; Body.status := None |}.

Definition formOf (deliveryMethod streetAddress zipCode : string) : OrderForm.t :=
  {| OrderForm.customerName := Some "Ada";
     OrderForm.customerPhone := Some "5551234567";
     OrderForm.deliveryMethod := Some deliveryMethod;
     OrderForm.streetAddress := Some streetAddress;
     OrderForm.city := Some "Monroe Township";
     OrderForm.state := Some "NJ";
     OrderForm.zipCode := Some zipCode;
     OrderForm.supportRemoval := Some false |}.

(** A model file of [bytes] bytes. *)
Definition modelOf (bytes : number) : MulterFile :=
  {| originalname := "part.stl"; path := "uploads/0001"; size := bytes |}.

(** Surroundings in which every mail is delivered, and in which none is. *)
Definition mailUp : Env :=
  {| randomUUID := "order-1"; now := 1000; EMAIL_FROM := None;
     readFileSync := fun _ => Returned "solid part";
     mime_lookup := fun _ => Returned "model/stl";
     resend_emails_send := fun _ => Returned tt |}.

Definition mailDown : Env :=
  {| randomUUID := "order-1"; now := 1000; EMAIL_FROM := None;
     readFileSync := fun _ => Returned "solid part";
     mime_lookup := fun _ => Returned "model/stl";
     resend_emails_send := fun _ => Thrown "connect ECONNREFUSED" |}.

Definition freshWorld : World := {| storage := emptyStorage; console := [] |}.

(** *** Mail failures *)

(** C7: when sending the mail throws, [POST /api/orders] still answers 200
    with the record the store created, the store is the store of that
    create and holds the record, and the failure is logged; this holds
    whatever the mail provider and the file system do. *)
Theorem mail_failure_keeps_order (env : Env) (w : World) (orderData : Body.t)
    (modelFile : option MulterFile) (validatedOrder : InsertOrder.t) (e : string) :
  insertOrderSchema_parse orderData (supportRequested orderData) = inr validatedOrder ->
  let created := createOrder (storage w) (randomUUID env) (now env)
                   (submittedDraft orderData modelFile validatedOrder) in
  sendOrderEmail env created.1 modelFile = Thrown e ->
  let result := postOrders env w orderData modelFile in
  result.2 = {| statusCode := 200; json := JsonOrder created.1 |} /\
  storage result.1 = created.2 /\
  getOrder (storage result.1) (Order.id created.1) = Some created.1 /\
  last (console result.1) = Some (LogError "Failed to send email:").
Proof.
  intros Hparse created Hmail result.
  destruct (postOrders_accepted env w orderData modelFile _ Hparse) as [Hres Hsto].
  subst result. rewrite Hres, Hsto. repeat split.
  - apply lookup_insert_eq.
  - eapply postOrders_mail_failure_logged; eassumption.
Qed.

Lemma mail_failure_keeps_order_witness :
  let result := postOrders mailDown freshWorld (bodyOf "meetup") (Some (modelOf 2097152%float)) in
  exists order,
    result.2 = {| statusCode := 200; json := JsonOrder order |} /\
    getOrder (storage result.1) "order-1" = Some order /\
    last (console result.1) = Some (LogError "Failed to send email:").
Proof.
  eexists.
  destruct (mail_failure_keeps_order mailDown freshWorld (bodyOf "meetup")
              (Some (modelOf 2097152%float)) _ "connect ECONNREFUSED" eq_refl eq_refl)
    as (Hres & _ & Hget & Hlog).
  split; [exact Hres | split; [exact Hget | exact Hlog]].
Defined.

(** *** Prices of created orders *)

(** The total-cost law read off a stored record: both prices are there, and
    as numbers the total is the base cost plus the flat fee of five when
    support removal is on. *)
Definition obeysTotalCostLaw (o : Order.t) : bool :=
  match Order.baseCost o, Order.totalCost o with
  | Some b, Some t =>
      PrimFloat.eqb (parseFloat t)
        (parseFloat b + (if orFalse (Order.supportRemoval o) then 5 else 0))%float
  | _, _ => false
  end.

(** A client that sends its own weight, time and base cost also decides the
    total: with a base cost of "8.75", support removal on and a total of
    "0.01" in the body, the record is stored with that total. *)
Lemma client_total_is_stored :
  let orderData := bodyWithSupport (Some "35") (Some "1h 32m") (Some "8.75") (Some "0.01") in
  let result := postOrders mailUp freshWorld orderData (Some (modelOf 2097152%float)) in
  exists order,
    result.2 = {| statusCode := 200; json := JsonOrder order |} /\
    getOrder (storage result.1) "order-1" = Some order /\
    Order.baseCost order = Some "8.75" /\
    Order.supportRemoval order = Some true /\
    Order.totalCost order = Some "0.01" /\
    obeysTotalCostLaw order = false.
Proof.
  eexists. split; [vm_compute; reflexivity |].
  split; [vm_compute; reflexivity |].
  repeat split; vm_compute; reflexivity.
Qed.

(** C1, as the route has it: with an upload and without the client's own
    weight, time and base cost, the stored base cost is the estimator's and
    the stored total is that base cost plus five when support removal is
    requested and plus zero otherwise, each as the text of the number; with
    all three of the client's figures, and also without an upload, the
    stored base cost and total are the ones the body carries. *)
Theorem total_cost_of_created_order (env : Env) (w : World) (orderData : Body.t)
    (modelFile : option MulterFile) (validatedOrder : InsertOrder.t) :
  insertOrderSchema_parse orderData (supportRequested orderData) = inr validatedOrder ->
  let result := postOrders env w orderData modelFile in
  let fee := (if supportRequested orderData then 5 else 0)%float in
  exists order,
    result.2 = {| statusCode := 200; json := JsonOrder order |} /\
    getOrder (storage result.1) (Order.id order) = Some order /\
    Order.supportRemoval order = Some (supportRequested orderData) /\
    match modelFile with
    | Some file =>
        let estimate := Analysis.baseCost (analyze3DModel file) in
        (hasFrontendAnalysis orderData = false ->
         Order.baseCost order = Some (toString estimate) /\
         Order.supportCost order = Some (toString fee) /\
         Order.totalCost order = Some (toString (estimate + fee)%float)) /\
        (hasFrontendAnalysis orderData = true ->
         Order.baseCost order = Body.baseCost orderData /\
         Order.totalCost order = orNull (Body.totalCost orderData))
    | None =>
        Order.baseCost order = orNull (Body.baseCost orderData) /\
        Order.totalCost order = orNull (Body.totalCost orderData)
    end.
Proof.
  intros Hparse result fee.
  destruct (postOrders_accepted env w orderData modelFile _ Hparse) as [Hres Hsto].
  destruct (insertOrderSchema_parse_inr _ _ _ Hparse) as (_ & _ & _ & _ & _ & Hsr).
  eexists. split; [exact Hres |]. subst result. rewrite Hsto.
  split; [apply lookup_insert_eq |].
  destruct modelFile as [file|].
  - unfold submittedDraft, withModel. rewrite Hsr. simpl orFalse.
    split; [destruct (hasFrontendAnalysis orderData); simpl; rewrite Hsr; reflexivity |].
    split; intros Hfront; rewrite Hfront; simpl.
    + rewrite !orNull_toString, orElse_given by apply toString_nonempty.
      repeat split; reflexivity.
    + unfold hasFrontendAnalysis in Hfront.
      apply andb_prop in Hfront as [_ Hbase].
      split; [|reflexivity].
      unfold orNull. rewrite Hbase. reflexivity.
  - simpl. rewrite Hsr. split; [reflexivity |].
    clear -Hparse. revert Hparse. unfold insertOrderSchema_parse.
    destruct (_ ++ _); [|discriminate].
    destruct (Body.customerName orderData); [|discriminate].
    destruct (Body.customerPhone orderData); [|discriminate].
    destruct (Body.deliveryMethod orderData); [|discriminate].
    intros [= <-]. split; reflexivity.
Qed.

Lemma total_cost_of_created_order_witness :
  let orderData := bodyWithSupport None None None None in
  let result := postOrders mailUp freshWorld orderData (Some (modelOf 2097152%float)) in
  exists order,
    result.2 = {| statusCode := 200; json := JsonOrder order |} /\
    Order.baseCost order = Some "8.75" /\
    Order.supportCost order = Some "5" /\
    Order.totalCost order = Some "13.75".
Proof.
  destruct (total_cost_of_created_order mailUp freshWorld
              (bodyWithSupport None None None None) (Some (modelOf 2097152%float))
              _ eq_refl)
    as (order & Hres & _ & _ & Hback & _).
  destruct (Hback eq_refl) as (Hbase & Hfee & Htotal).
  exists order. split; [exact Hres |].
  split; [exact Hbase | split; [exact Hfee | exact Htotal]].
Defined.

(** *** The delivery-address rule *)

(** The client form refuses a delivery order whose street address is empty,
    and takes the same values for a meetup. *)
Lemma form_requires_address :
  orderFormSchema_accepts (formOf "delivery" "" "08831") = false /\
  orderFormSchema_accepts (formOf "meetup" "" "08831") = true /\
  orderFormSchema_accepts (formOf "delivery" "12 Elm St" "08831") = true.
Proof. repeat split; reflexivity. Qed.

(** C2 on the server: [POST /api/orders] with the delivery method
    "delivery" and an empty street address passes validation, is answered
    200 and leaves a record with a null street address in the store; the
    same body with the method "meetup" is accepted as well. *)
Theorem delivery_without_address_is_stored :
  let delivery := postOrders mailUp freshWorld (bodyWithEmptyStreet "delivery") None in
  let meetup := postOrders mailUp freshWorld (bodyWithEmptyStreet "meetup") None in
  (exists order,
     delivery.2 = {| statusCode := 200; json := JsonOrder order |} /\
     getOrder (storage delivery.1) "order-1" = Some order /\
     Order.deliveryMethod order = "delivery" /\
     Order.streetAddress order = None) /\
  (exists order,
     meetup.2 = {| statusCode := 200; json := JsonOrder order |} /\
     getOrder (storage meetup.1) "order-1" = Some order /\
     Order.deliveryMethod order = "meetup").
Proof.
  split; eexists; (split; [vm_compute; reflexivity |]);
    (split; [vm_compute; reflexivity |]); repeat split; reflexivity.
Qed.

(** No address field decides the answer of the server: two bodies that
    agree on name, phone and delivery method are both accepted or both
    refused. *)
Lemma server_validation_ignores_address (a b : Body.t) (sa sb : bool) :
  Body.customerName a = Body.customerName b ->
  Body.customerPhone a = Body.customerPhone b ->
  Body.deliveryMethod a = Body.deliveryMethod b ->
  (exists v, insertOrderSchema_parse a sa = inr v) ->
  exists v, insertOrderSchema_parse b sb = inr v.
Proof.
  intros Hn Hp Hm Ha.
  apply insertOrderSchema_accepts_iff in Ha.
  apply insertOrderSchema_accepts_iff.
  rewrite <- Hn, <- Hp, <- Hm. exact Ha.
Qed.

(** ** Doubles and their values *)
















(** *** The text of small whole numbers *)






(** *** Doubles between bounds *)



(** *** The remainder by 60 *)





(** *** Division by 60 *)



(** *** The rounding of a quotient *)

















(** *** Comparisons and NaN *)






(** ** The estimator *)

Section EstimatorProperties.
Local Open Scope float_scope.

(** Rounding to two decimals the way the estimator does it:
    [parseFloat(x.toFixed(2))]. *)
Definition round2 (x : number) : number := parseFloat (toFixed x 2).


(** The print time is never below half an hour, and the weight of a file
    below 1 MB never below five grams. *)
Lemma printTimeMinutes_at_least_30 (s : number) :
  is_nan (printTimeMinutes s) = false -> (30 <=? printTimeMinutes s) = true.
Proof.
  intros Hnan. unfold printTimeMinutes in *.
  destruct (Math_max_not_nan _ _ Hnan) as [H30 Hsum].
  exact (proj1 (proj2 (Math_max_bounds _ _ H30 Hsum))).
Qed.

Lemma estimatedWeight_at_least_5 (s : number) :
  (s <? 1) = true -> is_nan (estimatedWeight s) = false ->
  (5 <=? estimatedWeight s) = true.
Proof.
  unfold estimatedWeight. intros ->. intros Hnan.
  destruct (Math_max_not_nan _ _ Hnan) as [H5 Hprod].
  exact (proj1 (proj2 (Math_max_bounds _ _ H5 Hprod))).
Qed.



(** The estimate of a 2 MB file, of a one-byte file and of a file at the
    upload limit of 50 MB. *)
Example estimate_2MB :
  let a := analyze3DModel (modelOf 2097152) in
  toString (Analysis.weight a) = "35" /\ Analysis.printTime a = "1h 32m"
  /\ toString (Analysis.baseCost a) = "8.75".
Proof. repeat split; vm_compute; reflexivity. Qed.

Example estimate_1B :
  let a := analyze3DModel (modelOf 1) in
  toString (Analysis.weight a) = "5" /\ Analysis.printTime a = "0h 30m"
  /\ toString (Analysis.baseCost a) = "1.25".
Proof. repeat split; vm_compute; reflexivity. Qed.

Example estimate_50MB :
  let a := analyze3DModel (modelOf 52428800) in
  toString (Analysis.weight a) = "530" /\ Analysis.printTime a = "29h 55m"
  /\ toString (Analysis.baseCost a) = "132.5".
Proof. repeat split; vm_compute; reflexivity. Qed.

(** For a file of 1,500,000 bytes the estimator returns the weight 26.46 and
    the base cost 6.61, while a quarter of the returned weight rounds to
    6.62: the base cost is taken from the weight before it is rounded
    (26.4577...), a quarter of which is 6.6144... *)
Lemma base_cost_not_from_returned_weight :
  let a := analyze3DModel (modelOf 1500000) in
  toString (Analysis.weight a) = "26.46" /\
  toString (Analysis.baseCost a) = "6.61" /\
  toString (round2 (Analysis.weight a * 0.25)) = "6.62" /\
  Analysis.baseCost a <> round2 (Analysis.weight a * 0.25).
Proof.
  repeat split; try (vm_compute; reflexivity).
  intros H. apply (f_equal toString) in H. vm_compute in H. discriminate.
Qed.

(** Two files with the same returned weight and different base costs: no
    rounding rule makes the base cost a function of the returned weight. *)
Lemma same_weight_different_base_cost :
  let a := analyze3DModel (modelOf 263100) in
  let b := analyze3DModel (modelOf 263300) in
  Analysis.weight a = Analysis.weight b /\
  toString (Analysis.weight a) = "5.02" /\
  toString (Analysis.baseCost a) = "1.25" /\
  toString (Analysis.baseCost b) = "1.26".
Proof. repeat split; vm_compute; reflexivity. Qed.

(** C5, as the estimator has it: the base cost returned is a quarter of the
    estimated weight, before that weight is rounded, rounded to two
    decimals; the weight returned is the estimated weight rounded to two
    decimals; and the base cost is a quarter of the returned weight, rounded
    to two decimals, whenever rounding left the weight as it was. *)
Theorem base_cost_from_estimated_weight (file : MulterFile) :
  let w := estimatedWeight (fileSizeMB file) in
  let a := analyze3DModel file in
  Analysis.baseCost a = round2 (w * 0.25) /\
  Analysis.weight a = round2 w /\
  (Analysis.weight a = w -> Analysis.baseCost a = round2 (Analysis.weight a * 0.25)).
Proof.
  intros w a. split; [reflexivity |]. split; [reflexivity |].
  intros ->. reflexivity.
Qed.

(** A whole number of megabytes is such a size: at 2 MB the weight is 35 and
    the base cost 8.75, and so it is at every whole number of megabytes up
    to the upload limit of 50. *)
Example base_cost_2MB :
  let a := analyze3DModel (modelOf 2097152) in
  Analysis.weight a = estimatedWeight (fileSizeMB (modelOf 2097152)) /\
  Analysis.baseCost a = round2 (Analysis.weight a * 0.25).
Proof. split; vm_compute; reflexivity. Qed.

Example base_cost_whole_megabytes :
  forallb (fun n =>
             let file := modelOf (ofQ (inject_Z (Z.of_nat n * 1048576))) in
             let a := analyze3DModel file in
             PrimFloat.eqb (Analysis.weight a) (estimatedWeight (fileSizeMB file))
             && PrimFloat.eqb (Analysis.baseCost a) (round2 (Analysis.weight a * 0.25)))
          (seq 1 50) = true.
Proof. vm_compute. reflexivity. Qed.

End EstimatorProperties.

(** The order of the 2 MB scenario with support removal: base cost 8.75,
    total 13.75, and the total-cost law holds of the stored record. *)
Example order_2MB_with_support :
  let result := postOrders mailUp freshWorld (bodyWithSupport None None None None)
                  (Some (modelOf 2097152%float)) in
  exists order,
    getOrder (storage result.1) "order-1" = Some order /\
    Order.modelWeight order = Some "35" /\
    Order.printTime order = Some "1h 32m" /\
    Order.baseCost order = Some "8.75" /\
    Order.totalCost order = Some "13.75" /\
    Order.status order = Some "pending" /\
    Order.streetAddress order = None /\
    obeysTotalCostLaw order = true.
Proof.
  eexists. split; [vm_compute; reflexivity |]. repeat split; vm_compute; reflexivity.
Qed.

(** * Further properties *)

(** ** The upload filter *)

Definition isAscii (s : string) : bool :=
  forallb (fun c => (nat_of_ascii c <? 128)%nat) (list_ascii_of_string s).

Lemma toLowerCase_app (a b : string) :
  toLowerCase (a +:+ b) = toLowerCase a +:+ toLowerCase b.
Proof. induction a as [|c a IH]; simpl; [reflexivity | by rewrite IH]. Qed.

Lemma toLowerCase_length (s : string) :
  String.length (toLowerCase s) = String.length s.
Proof. induction s as [|c s IH]; simpl; [reflexivity | by rewrite IH]. Qed.

Lemma dropStr_app (a b : string) : dropStr (String.length a) (a +:+ b) = b.
Proof. induction a as [|c a IH]; simpl; [by destruct b | exact IH]. Qed.

Lemma takeStr_dropStr (n : nat) (s : string) : takeStr n s +:+ dropStr n s = s.
Proof.
  revert s. induction n as [|n IH]; intros [|c s]; try reflexivity.
  change (String c (takeStr n s +:+ dropStr n s) = String c s).
  f_equal. apply IH.
Qed.

Lemma toLowerCase_dropStr (n : nat) (s : string) :
  toLowerCase (dropStr n s) = dropStr n (toLowerCase s).
Proof.
  revert s. induction n as [|n IH]; intros [|c s]; simpl; try reflexivity.
  apply IH.
Qed.

Lemma lastIndexOf_cons (a : ascii) (s : string) (c : ascii) :
  lastIndexOf (String a s) c =
    if 0 <=? lastIndexOf s c then lastIndexOf s c + 1
    else if Ascii.eqb a c then 0 else -1.
Proof. reflexivity. Qed.

Lemma lastIndexOf_range (s : string) (c : ascii) :
  -1 <= lastIndexOf s c < Z.of_nat (String.length s).
Proof.
  induction s as [|a s IH]; [simpl; lia|].
  rewrite lastIndexOf_cons. change (String.length (String a s)) with (S (String.length s)).
  rewrite Nat2Z.inj_succ.
  destruct (Z.leb_spec 0 (lastIndexOf s c)); [lia|].
  destruct (Ascii.eqb a c); lia.
Qed.

Lemma lastIndexOf_app (a b : string) (c : ascii) :
  0 <= lastIndexOf b c ->
  lastIndexOf (a +:+ b) c = Z.of_nat (String.length a) + lastIndexOf b c.
Proof.
  intros Hb. induction a as [|x a IH]; [change ("" +:+ b) with b; simpl String.length; lia|].
  change (String x a +:+ b) with (String x (a +:+ b)).
  rewrite lastIndexOf_cons, IH.
  change (String.length (String x a)) with (S (String.length a)).
  rewrite Nat2Z.inj_succ.
  destruct (Z.leb_spec 0 (Z.of_nat (String.length a) + lastIndexOf b c)); lia.
Qed.

Lemma lowerChar_dot (c : ascii) : lowerChar c = "."%char -> c = "."%char.
Proof.
  revert c. intros [[] [] [] [] [] [] [] []]; vm_compute; congruence.
Qed.

Lemma lowerChar_not_dot (c : ascii) : lowerChar c <> "."%char -> c <> "."%char.
Proof. intros H ->. apply H. reflexivity. Qed.

(** An extension on the list, in any mix of cases, is a dot followed by
    three characters none of which is a dot. *)
Lemma allowed_extension_shape (ext : string) :
  In (toLowerCase ext) allowedTypes ->
  String.length ext = 4%nat /\ lastIndexOf ext "." = 0.
Proof.
  intros Hin.
  destruct ext as [|c0 [|c1 [|c2 [|c3 [|c4 r]]]]];
    try (simpl in Hin; intuition discriminate).
  split; [reflexivity |].
  assert (c0 = "."%char /\ c1 <> "."%char /\ c2 <> "."%char /\ c3 <> "."%char)
    as (-> & H1 & H2 & H3).
  { simpl in Hin. destruct Hin as [H | [H | [H | []]]]; injection H as H0 H1 H2 H3;
      (split; [by apply lowerChar_dot |]); repeat split;
      apply lowerChar_not_dot; rewrite <- ?H1, <- ?H2, <- ?H3; discriminate. }
  rewrite !lastIndexOf_cons. simpl lastIndexOf.
  destruct (Ascii.eqb_spec c3 "."); [contradiction|].
  destruct (Ascii.eqb_spec c2 "."); [contradiction|].
  destruct (Ascii.eqb_spec c1 "."); [contradiction|].
  reflexivity.
Qed.

Lemma dropStr_length (n : nat) (s : string) :
  String.length (dropStr n s) = (String.length s - n)%nat.
Proof.
  revert s. induction n as [|n IH]; intros [|c s]; simpl; try reflexivity.
  apply IH.
Qed.

Lemma append_length (a b : string) :
  String.length (a +:+ b) = (String.length a + String.length b)%nat.
Proof.
  induction a as [|c a IH]; [reflexivity|].
  change (String c a +:+ b) with (String c (a +:+ b)). simpl. by rewrite IH.
Qed.

Lemma fileFilter_accepts (name : string) :
  fileFilter name = Returned true <->
  existsb (String.eqb (slice (toLowerCase name) (lastIndexOf name "."))) allowedTypes = true.
Proof.
  unfold fileFilter. destruct (existsb _ _); split; congruence.
Qed.

(** X1: the filter lets a file through exactly when its name ends in one of
    the three extensions, in any mix of upper and lower case; the extension
    is what starts at the last dot of the name. *)
Theorem fileFilter_accepts_iff (name : string) :
  isAscii name = true ->
  fileFilter name = Returned true <->
  exists stem ext, name = stem +:+ ext /\ In (toLowerCase ext) allowedTypes.
Proof.
  intros _. rewrite fileFilter_accepts, existsb_exists. unfold slice. split.
  - intros (x & Hin & Heq%String.eqb_eq).
    set (n := Z.to_nat _) in Heq.
    exists (takeStr n name), (dropStr n name). split.
    + symmetry. apply takeStr_dropStr.
    + rewrite toLowerCase_dropStr, Heq. exact Hin.
  - intros (stem & ext & -> & Hin).
    destruct (allowed_extension_shape ext Hin) as [Hlen Hdot].
    exists (toLowerCase ext). split; [exact Hin |].
    apply String.eqb_eq.
    rewrite lastIndexOf_app, Hdot by lia.
    rewrite toLowerCase_app.
    assert (Hfirst : Z.to_nat
              (if Z.of_nat (String.length stem) + 0 <? 0
               then Z.max (Z.of_nat (String.length (toLowerCase stem +:+ toLowerCase ext))
                           + (Z.of_nat (String.length stem) + 0)) 0
               else Z.min (Z.of_nat (String.length stem) + 0)
                      (Z.of_nat (String.length (toLowerCase stem +:+ toLowerCase ext))))
            = String.length (toLowerCase stem)).
    { rewrite append_length, !toLowerCase_length.
      destruct (Z.ltb_spec (Z.of_nat (String.length stem) + 0) 0); lia. }
    rewrite Hfirst. apply dropStr_app.
Qed.

Lemma fileFilter_accepts_iff_witness :
  fileFilter "Bracket.v2.STL" = Returned true <->
  exists stem ext, "Bracket.v2.STL" = stem +:+ ext /\ In (toLowerCase ext) allowedTypes.
Proof.
  apply (fileFilter_accepts_iff "Bracket.v2.STL"). reflexivity.
Defined.

(** X2: a name without a dot is refused with the "Invalid file type" error,
    whatever its last character is: the slice then starts one character
    before the end. *)
Theorem fileFilter_refuses_undotted (name : string) :
  isAscii name = true ->
  lastIndexOf name "." = -1 ->
  fileFilter name =
    Thrown "Invalid file type. Only STL, OBJ, and 3MF files are allowed.".
Proof.
  intros _ Hdot. unfold fileFilter. rewrite Hdot.
  destruct (existsb _ _) eqn:Hex; [|reflexivity].
  exfalso. apply existsb_exists in Hex as (x & Hin & Heq%String.eqb_eq).
  assert (Hlen : (String.length x <= 1)%nat).
  { rewrite <- Heq. unfold slice. rewrite dropStr_length.
    change (-1 <? 0) with true. cbv iota. lia. }
  simpl in Hin. destruct Hin as [<- | [<- | [<- | []]]]; simpl in Hlen; lia.
Qed.

Lemma fileFilter_refuses_undotted_witness :
  fileFilter "bracket_stl" =
    Thrown "Invalid file type. Only STL, OBJ, and 3MF files are allowed.".
Proof.
  apply (fileFilter_refuses_undotted "bracket_stl"); reflexivity.
Defined.

(** ** The store: listing, creation and updates *)

(** X3: [getAllOrders] lists exactly the records [getOrder] can find: a
    record is in the list if and only if it is stored under some
    identifier. *)
Theorem getAllOrders_lists_stored (this : MemStorage) (o : Order.t) :
  o ∈ getAllOrders this <-> exists id, getOrder this id = Some o.
Proof.
  unfold getAllOrders, getOrder. rewrite list_elem_of_fmap. split.
  - intros ([id o'] & -> & Hin%elem_of_map_to_list). by exists id.
  - intros [id Hget]. exists (id, o). split; [reflexivity |].
    by apply elem_of_map_to_list.
Qed.

(** X4: with an identifier the store does not hold yet, [createOrder] adds
    the new record to the listing and nothing else: the listing afterwards
    is the new record and the records listed before, and every other
    identifier finds what it found before. *)
Theorem createOrder_fresh (this : MemStorage) (id : string) (now : Date)
    (draft : InsertOrder.t) :
  getOrder this id = None ->
  let created := createOrder this id now draft in
  getAllOrders created.2 ≡ₚ created.1 :: getAllOrders this /\
  length (getAllOrders created.2) = S (length (getAllOrders this)) /\
  (forall other, other <> id -> getOrder created.2 other = getOrder this other).
Proof.
  intros Hfresh created. unfold getOrder in Hfresh.
  assert (Hperm : getAllOrders created.2 ≡ₚ created.1 :: getAllOrders this).
  { unfold getAllOrders. subst created. simpl orders.
    rewrite (map_to_list_insert _ _ _ Hfresh). reflexivity. }
  split; [exact Hperm |]. split.
  - rewrite Hperm. reflexivity.
  - intros other Hother. unfold getOrder. subst created. simpl.
    by apply lookup_insert_ne.
Qed.

Lemma createOrder_fresh_witness :
  let created := createOrder emptyStorage "order-1" 1000 sampleDraft in
  getAllOrders created.2 ≡ₚ created.1 :: getAllOrders emptyStorage /\
  length (getAllOrders created.2) = S (length (getAllOrders emptyStorage)) /\
  (forall other, other <> "order-1" ->
                 getOrder created.2 other = getOrder emptyStorage other).
Proof.
  apply (createOrder_fresh emptyStorage "order-1" 1000 sampleDraft). reflexivity.
Defined.

(** X5: [createOrder] does not check the identifier it is given: when the
    store already holds a record under it, that record is replaced by the
    new one, the number of records stays the same and the other records are
    untouched. *)
Theorem createOrder_replaces (this : MemStorage) (id : string) (now : Date)
    (draft : InsertOrder.t) (old : Order.t) :
  getOrder this id = Some old ->
  let created := createOrder this id now draft in
  getOrder created.2 id = Some created.1 /\
  length (getAllOrders created.2) = length (getAllOrders this) /\
  (forall other, other <> id -> getOrder created.2 other = getOrder this other).
Proof.
  intros Hold created. unfold getOrder in *. subst created. simpl. split; [|split].
  - apply lookup_insert_eq.
  - unfold getAllOrders. simpl. rewrite !length_fmap, !length_map_to_list.
    by apply map_size_insert_Some.
  - intros other Hother. by apply lookup_insert_ne.
Qed.

Lemma createOrder_replaces_witness :
  let first := createOrder emptyStorage "order-1" 1000 sampleDraft in
  let created := createOrder first.2 "order-1" 2000 sampleDraft in
  getOrder created.2 "order-1" = Some created.1 /\
  length (getAllOrders created.2) = length (getAllOrders first.2) /\
  (forall other, other <> "order-1" -> getOrder created.2 other = getOrder first.2 other).
Proof.
  apply (createOrder_replaces
           (createOrder emptyStorage "order-1" 1000 sampleDraft).2
           "order-1" 2000 sampleDraft
           (createOrder emptyStorage "order-1" 1000 sampleDraft).1).
  vm_compute. reflexivity.
Defined.

(** X6: [updateOrder] neither adds nor removes a record: whatever the
    identifier and the patch, the same identifiers are stored afterwards and
    the listing is as long as before. *)
Theorem updateOrder_keeps_identifiers (this : MemStorage) (now : Date) (id : string)
    (patch : PartialOrder.t) :
  let this' := (updateOrder this now id patch).2 in
  (forall other, is_Some (getOrder this' other) <-> is_Some (getOrder this other)) /\
  length (getAllOrders this') = length (getAllOrders this).
Proof.
  unfold updateOrder, getOrder.
  destruct (orders this !! id) as [existing|] eqn:Hlook; simpl; [|split; reflexivity].
  split.
  - intros other. destruct (decide (other = id)) as [-> | Hne].
    + rewrite lookup_insert_eq, Hlook. split; eauto.
    + by rewrite lookup_insert_ne.
  - unfold getAllOrders. simpl. rewrite !length_fmap, !length_map_to_list.
    by eapply map_size_insert_Some.
Qed.

(** The patch that names what [first] or [second] names, with the value of
    [second] where both do: [{...first, ...second}]. *)
Definition overlay (first second : PartialOrder.t) : PartialOrder.t :=
  let pick {A} (a b : option A) : option A :=
    match b with Some _ => b | None => a end in
  {| PartialOrder.id := pick (PartialOrder.id first) (PartialOrder.id second);
     PartialOrder.customerName :=
       pick (PartialOrder.customerName first) (PartialOrder.customerName second);
     PartialOrder.customerPhone :=
       pick (PartialOrder.customerPhone first) (PartialOrder.customerPhone second);
     PartialOrder.deliveryMethod :=
       pick (PartialOrder.deliveryMethod first) (PartialOrder.deliveryMethod second);
     PartialOrder.streetAddress :=
       pick (PartialOrder.streetAddress first) (PartialOrder.streetAddress second);
     PartialOrder.city := pick (PartialOrder.city first) (PartialOrder.city second);
     PartialOrder.state := pick (PartialOrder.state first) (PartialOrder.state second);
     PartialOrder.zipCode := pick (PartialOrder.zipCode first) (PartialOrder.zipCode second);
     PartialOrder.modelFileName :=
       pick (PartialOrder.modelFileName first) (PartialOrder.modelFileName second);
     PartialOrder.modelWeight :=
       pick (PartialOrder.modelWeight first) (PartialOrder.modelWeight second);
     PartialOrder.printTime :=
       pick (PartialOrder.printTime first) (PartialOrder.printTime second);
     PartialOrder.baseCost :=
       pick (PartialOrder.baseCost first) (PartialOrder.baseCost second);
     PartialOrder.supportRemoval :=
       pick (PartialOrder.supportRemoval first) (PartialOrder.supportRemoval second);
     PartialOrder.supportCost :=
       pick (PartialOrder.supportCost first) (PartialOrder.supportCost second);
     PartialOrder.totalCost :=
       pick (PartialOrder.totalCost first) (PartialOrder.totalCost second);
     PartialOrder.status := pick (PartialOrder.status first) (PartialOrder.status second);
     PartialOrder.createdAt :=
       pick (PartialOrder.createdAt first) (PartialOrder.createdAt second);
     PartialOrder.updatedAt :=
       pick (PartialOrder.updatedAt first) (PartialOrder.updatedAt second) |}.

Lemma mergeOrder_twice (o : Order.t) (first second : PartialOrder.t) (t1 t2 : Date) :
  mergeOrder (mergeOrder o first t1) second t2 = mergeOrder o (overlay first second) t2.
Proof.
  unfold mergeOrder, overlay; simpl. f_equal;
    match goal with |- context [default _ ?p] => destruct p; reflexivity end.
Qed.

(** X7: two updates of the same identifier, one after the other, leave the
    store as one update with both patches laid over each other does, the
    later patch on top; the result and the time stamp are those of the later
    call, and the time of the earlier call leaves no trace. *)
Theorem updateOrder_twice (this : MemStorage) (id : string)
    (first second : PartialOrder.t) (t1 t2 : Date) :
  updateOrder (updateOrder this t1 id first).2 t2 id second =
  updateOrder this t2 id (overlay first second).
Proof.
  unfold updateOrder.
  destruct (orders this !! id) as [existing|] eqn:Hlook; simpl.
  - rewrite lookup_insert_eq, mergeOrder_twice. simpl.
    rewrite insert_insert_eq. reflexivity.
  - rewrite Hlook. reflexivity.
Qed.

(** *** Records under their own identifier *)

(** Every stored record says of itself the identifier it is stored under. *)
Definition wellKeyed (this : MemStorage) : Prop :=
  forall id o, getOrder this id = Some o -> Order.id o = id.

(** A call on the store: a create with the identifier and time it draws, or
    an update. *)
Inductive StoreCall :=
  | Create (id : string) (now : Date) (draft : InsertOrder.t)
  | Update (call : UpdateCall).

Definition callStore (this : MemStorage) (c : StoreCall) : MemStorage :=
  match c with
  | Create id now draft => (createOrder this id now draft).2
  | Update u => (updateOrder this (at_ u) (target u) (updates u)).2
  end.

Definition harmless (c : StoreCall) : Prop :=
  match c with
  | Create _ _ _ => True
  | Update u => keepsId u
  end.

Lemma createOrder_wellKeyed (this : MemStorage) (id : string) (now : Date)
    (draft : InsertOrder.t) :
  wellKeyed this -> wellKeyed (createOrder this id now draft).2.
Proof.
  intros Hwk key o. unfold getOrder. simpl.
  destruct (decide (key = id)) as [-> | Hne].
  - rewrite lookup_insert_eq. intros [= <-]. reflexivity.
  - rewrite lookup_insert_ne by congruence. apply Hwk.
Qed.

Lemma updateOrder_wellKeyed (this : MemStorage) (u : UpdateCall) :
  keepsId u -> wellKeyed this ->
  wellKeyed (updateOrder this (at_ u) (target u) (updates u)).2.
Proof.
  intros Hkeep Hwk key o Hget.
  destruct (decide (key = target u)) as [-> | Hne].
  - destruct (getOrder this (target u)) as [existing|] eqn:Hold.
    + destruct (updateOrder_keeps_id this u (target u) existing Hkeep Hold
                  (Hwk _ _ Hold)) as (o' & Hget' & Hid).
      congruence.
    + unfold updateOrder, getOrder in *. rewrite Hold in Hget. simpl in Hget.
      congruence.
  - rewrite updateOrder_other in Hget by assumption. by apply Hwk.
Qed.

(** X8: starting from the empty store, after any sequence of creates and of
    updates whose patches do not rename, every stored record carries the
    identifier it is stored under, so [getOrder(id)] never returns a record
    with another [id]. *)
Theorem store_stays_wellKeyed (calls : list StoreCall) :
  Forall harmless calls ->
  wellKeyed (fold_left callStore calls emptyStorage).
Proof.
  intros Hcalls.
  assert (Hgen : forall this, wellKeyed this -> wellKeyed (fold_left callStore calls this)).
  { induction Hcalls as [|c calls Hc _ IH]; intros this Hwk; [exact Hwk |].
    simpl. apply IH. destruct c as [id now draft | u]; simpl.
    - by apply createOrder_wellKeyed.
    - by apply updateOrder_wellKeyed. }
  apply Hgen. intros id o. unfold getOrder, emptyStorage. simpl.
  rewrite lookup_empty. discriminate.
Qed.

Lemma store_stays_wellKeyed_witness :
  wellKeyed (fold_left callStore
               [Create "order-1" 1000 sampleDraft;
                Update {| at_ := 2000; target := "order-1";
                          updates := PartialOrder.empty |};
                Create "order-2" 3000 sampleDraft]
               emptyStorage).
Proof.
  apply store_stays_wellKeyed.
  constructor; [exact I |]. constructor; [left; reflexivity |].
  constructor; [exact I | constructor].
Defined.

(** ** The routes in sequence *)

(** The state in which [createOrder] leaves a record. *)
Definition asCreated (o : Order.t) : Prop :=
  Order.status o = Some "pending" /\
  Order.createdAt o = Order.updatedAt o /\
  is_Some (Order.createdAt o) /\
  is_Some (Order.supportRemoval o) /\
  (exists cost, Order.supportCost o = Some cost /\ cost <> "") /\
  Forall (fun text => text <> Some "") (optionalTexts o).

Lemma createOrder_asCreated (this : MemStorage) (id : string) (now : Date)
    (draft : InsertOrder.t) :
  asCreated (createOrder this id now draft).1.
Proof.
  unfold asCreated; simpl. repeat split; eauto.
  - eexists. split; [reflexivity |]. unfold orElse.
    destruct (InsertOrder.supportCost draft) as [s|]; [|discriminate].
    destruct (String.eqb_spec s ""); [discriminate | assumption].
  - unfold optionalTexts; simpl. repeat constructor; apply orNull_not_empty.
Qed.

(** What the routes keep true of the store. *)
Definition asServed (this : MemStorage) : Prop :=
  forall id o, getOrder this id = Some o -> Order.id o = id /\ asCreated o.

(** A request leaves the store alone or makes one create on it. *)
Lemma handle_storage (w : World) (r : Request) :
  storage (handle w r).1 = storage w \/
  exists env orderData modelFile draft,
    r = PostOrders env orderData modelFile /\
    storage (handle w r).1 =
      (createOrder (storage w) (randomUUID env) (now env) draft).2.
Proof.
  destruct r as [env orderData modelFile | id | file]; simpl.
  - destruct (insertOrderSchema_parse orderData (supportRequested orderData))
      as [issues | validatedOrder] eqn:Hparse.
    + left. exact (proj2 (postOrders_rejected env w orderData modelFile _ Hparse)).
    + right. exists env, orderData, modelFile. eexists. split; [reflexivity |].
      exact (proj2 (postOrders_accepted env w orderData modelFile _ Hparse)).
  - left. unfold getOrderById. destruct (getOrder _ _); reflexivity.
  - left. unfold postAnalyzeModel. destruct file; reflexivity.
Qed.

Lemma handle_asServed (w : World) (r : Request) :
  asServed (storage w) -> asServed (storage (handle w r).1).
Proof.
  intros Hinv.
  destruct (handle_storage w r) as [-> | (env & _ & _ & draft & _ & ->)];
    [exact Hinv |].
  intros id o. unfold getOrder. simpl.
  destruct (decide (id = randomUUID env)) as [-> | Hne].
  - rewrite lookup_insert_eq. intros [= <-].
    split; [reflexivity |].
    apply (createOrder_asCreated (storage w) (randomUUID env) (now env) draft).
  - rewrite lookup_insert_ne by congruence. apply Hinv.
Qed.

(** X9: an invariant of the store under the three routes.  After any
    sequence of requests, starting with an empty store, every stored record
    carries the identifier it is stored under, has the status "pending",
    equal creation and update times, a support flag and a support cost, and
    no empty string in an optional text field. *)
Theorem served_orders_are_as_created (requests : list Request) :
  asServed (storage (serve freshWorld requests)).
Proof.
  assert (Hgen : forall w, asServed (storage w) -> asServed (storage (serve w requests))).
  { induction requests as [|r requests IH]; intros w Hinv; [exact Hinv |].
    simpl. apply IH. by apply handle_asServed. }
  apply Hgen. intros id o. unfold getOrder. simpl. rewrite lookup_empty. discriminate.
Qed.

(** A request that does not create under [id]: any read or preview, and any
    submission that draws another identifier. *)
Definition sparesId (id : string) (r : Request) : Prop :=
  match r with
  | PostOrders env _ _ => randomUUID env <> id
  | _ => True
  end.

(** X10: a stored order is found unchanged after any sequence of requests,
    as long as no later submission draws its identifier again. *)
Theorem order_survives_requests (requests : list Request) (w : World) (id : string)
    (o : Order.t) :
  getOrder (storage w) id = Some o ->
  Forall (sparesId id) requests ->
  getOrder (storage (serve w requests)) id = Some o.
Proof.
  intros Hget Hspare. revert w Hget.
  induction Hspare as [|r requests Hr _ IH]; intros w Hget; [exact Hget |].
  simpl. apply IH.
  destruct (handle_storage w r) as [-> | (env & od & mf & draft & -> & ->)];
    [exact Hget |].
  unfold getOrder in *. simpl in *. by rewrite lookup_insert_ne.
Qed.

Lemma order_survives_requests_witness :
  let w := (postOrders mailUp freshWorld (bodyOf "meetup") None).1 in
  let later := {| randomUUID := "order-2"; now := 2000; EMAIL_FROM := None;
                  readFileSync := fun _ => Thrown "ENOENT";
                  mime_lookup := fun _ => Returned "model/stl";
                  resend_emails_send := fun _ => Returned tt |} in
  exists o,
    getOrder (storage w) "order-1" = Some o /\
    getOrder (storage (serve w [GetOrderById "order-9";
                                PostOrders later (bodyOf "delivery") None;
                                PostAnalyzeModel None])) "order-1" = Some o.
Proof.
  eexists. split; [vm_compute; reflexivity |].
  apply order_survives_requests; [vm_compute; reflexivity |].
  constructor; [exact I |]. constructor; [simpl; discriminate |].
  constructor; [exact I | constructor].
Defined.

(** X11: an accepted submission can be read back: [GET /api/orders/:id] with
    the identifier of the order in the answer is answered 200 with that
    same order, and changes nothing. *)
Theorem submitted_order_can_be_read (env : Env) (w : World) (orderData : Body.t)
    (modelFile : option MulterFile) (validatedOrder : InsertOrder.t) :
  insertOrderSchema_parse orderData (supportRequested orderData) = inr validatedOrder ->
  let result := postOrders env w orderData modelFile in
  exists order,
    result.2 = {| statusCode := 200; json := JsonOrder order |} /\
    Order.id order = randomUUID env /\
    getOrderById result.1 (Order.id order) =
      (result.1, {| statusCode := 200; json := JsonOrder order |}).
Proof.
  intros Hparse result.
  destruct (postOrders_accepted env w orderData modelFile _ Hparse) as [Hres Hsto].
  eexists. split; [exact Hres |]. split; [reflexivity |].
  unfold getOrderById, getOrder. subst result. rewrite Hsto. simpl.
  rewrite lookup_insert_eq. reflexivity.
Qed.

Lemma submitted_order_can_be_read_witness :
  let result := postOrders mailUp freshWorld (bodyOf "meetup") None in
  exists order,
    result.2 = {| statusCode := 200; json := JsonOrder order |} /\
    Order.id order = "order-1" /\
    getOrderById result.1 (Order.id order) =
      (result.1, {| statusCode := 200; json := JsonOrder order |}).
Proof.
  exact (submitted_order_can_be_read mailUp freshWorld (bodyOf "meetup") None _ eq_refl).
Defined.

(** *** Answers of the submission route *)

Definition issueField (i : ZodIssue) : string :=
  match i with
  | Required field => field
  | TooSmall field _ => field
  | InvalidEnumValue field _ => field
  end.

Definition requiredFields : list string :=
  ["customerName"; "customerPhone"; "deliveryMethod"].

Lemma zStringMin_fields (field : string) (n : nat) (message : string)
    (v : option string) :
  Forall (fun i => issueField i = field) (zStringMin field n message v).
Proof.
  unfold zStringMin. destruct v as [s|]; [destruct (_ <? _)%nat|];
    repeat constructor.
Qed.

Lemma zDeliveryMethod_fields (field : string) (v : option string) :
  Forall (fun i => issueField i = field) (zDeliveryMethod field v).
Proof.
  unfold zDeliveryMethod. destruct v as [s|]; [destruct (_ || _)|];
    repeat constructor.
Qed.

(** A refusal names at least one issue, and only required fields. *)
Lemma insertOrderSchema_parse_inl (orderData : Body.t) (supportRemoval : bool)
    (issues : list ZodIssue) :
  insertOrderSchema_parse orderData supportRemoval = inl issues ->
  issues <> [] /\ Forall (fun i => In (issueField i) requiredFields) issues.
Proof.
  unfold insertOrderSchema_parse. intros Hparse.
  assert (Hfields : Forall (fun i => In (issueField i) requiredFields)
            (zStringMin "customerName" 1 "Customer name is required"
               (Body.customerName orderData)
             ++ zStringMin "customerPhone" 10 "Valid phone number is required"
                  (Body.customerPhone orderData)
             ++ zDeliveryMethod "deliveryMethod" (Body.deliveryMethod orderData))).
  { repeat apply Forall_app_2.
    - eapply Forall_impl; [apply zStringMin_fields |].
      intros i ->. left; reflexivity.
    - eapply Forall_impl; [apply zStringMin_fields |].
      intros i ->. right; left; reflexivity.
    - eapply Forall_impl; [apply zDeliveryMethod_fields |].
      intros i ->. right; right; left; reflexivity. }
  revert Hparse Hfields.
  remember (zStringMin "customerName" 1 "Customer name is required"
              (Body.customerName orderData)
            ++ zStringMin "customerPhone" 10 "Valid phone number is required"
                 (Body.customerPhone orderData)
            ++ zDeliveryMethod "deliveryMethod" (Body.deliveryMethod orderData))
    as found eqn:Hfound.
  destruct found as [|i rest].
  - symmetry in Hfound.
    apply app_eq_nil in Hfound as [Hname Hfound].
    apply app_eq_nil in Hfound as [Hphone Hmethod].
    destruct (Body.customerName orderData); [|discriminate Hname].
    destruct (Body.customerPhone orderData); [|discriminate Hphone].
    destruct (Body.deliveryMethod orderData); [|discriminate Hmethod].
    discriminate.
  - intros Hparse Hfields.
    assert (issues = i :: rest) as ->.
    { destruct (Body.customerName orderData), (Body.customerPhone orderData),
        (Body.deliveryMethod orderData); congruence. }
    split; [discriminate | exact Hfields].
Qed.

(** X12: the handler of [POST /api/orders], on a request that got past the
    upload middleware and whose body holds for each field no value or one
    string (the bodies of [Body.t]), has two answers.  Either 200 with the
    created order, which is then in the store under the identifier drawn;
    or 400 with a list of validation issues that is not empty and names
    only the name, the phone number or the delivery method, and then the
    store is as it was before the request. *)
Theorem postOrders_answers (env : Env) (w : World) (orderData : Body.t)
    (modelFile : option MulterFile) :
  let result := postOrders env w orderData modelFile in
  (exists order,
     result.2 = {| statusCode := 200; json := JsonOrder order |} /\
     getOrder (storage result.1) (randomUUID env) = Some order) \/
  (exists issues,
     result.2 = {| statusCode := 400; json := JsonMessage (Issues issues) |} /\
     issues <> [] /\
     Forall (fun i => In (issueField i) requiredFields) issues /\
     storage result.1 = storage w).
Proof.
  intros result.
  destruct (insertOrderSchema_parse orderData (supportRequested orderData))
    as [issues | validatedOrder] eqn:Hparse.
  - right. exists issues.
    destruct (postOrders_rejected env w orderData modelFile _ Hparse) as [Hres Hsto].
    destruct (insertOrderSchema_parse_inl _ _ _ Hparse) as [Hne Hfields].
    repeat split; assumption.
  - left.
    destruct (postOrders_accepted env w orderData modelFile _ Hparse) as [Hres Hsto].
    eexists. split; [exact Hres |]. subst result. rewrite Hsto.
    unfold getOrder. simpl. apply lookup_insert_eq.
Qed.

(** *** The preview, the form and the stored order *)

Lemma formatPrintTime_nonempty (minutes : number) : formatPrintTime minutes <> "".
Proof.
  unfold formatPrintTime. intros H.
  apply append_empty in H as [_ H]. discriminate.
Qed.

(** The draft of the fallback branch and what the store makes of it. *)
Lemma fallback_estimate_stored (env : Env) (w : World) (orderData : Body.t)
    (file : MulterFile) (validatedOrder : InsertOrder.t) :
  insertOrderSchema_parse orderData (supportRequested orderData) = inr validatedOrder ->
  hasFrontendAnalysis orderData = false ->
  let analysis := analyze3DModel file in
  let fee := (if supportRequested orderData then 5 else 0)%float in
  exists order,
    (postOrders env w orderData (Some file)).2 =
      {| statusCode := 200; json := JsonOrder order |} /\
    Order.modelWeight order = Some (toString (Analysis.weight analysis)) /\
    Order.printTime order = Some (Analysis.printTime analysis) /\
    Order.baseCost order = Some (toString (Analysis.baseCost analysis)) /\
    Order.totalCost order = Some (toString (Analysis.baseCost analysis + fee)%float) /\
    Order.streetAddress order = orNull (Body.streetAddress orderData) /\
    Order.zipCode order = orNull (Body.zipCode orderData) /\
    Order.deliveryMethod order = InsertOrder.deliveryMethod validatedOrder.
Proof.
  intros Hparse Hfront analysis fee.
  destruct (postOrders_accepted env w orderData (Some file) _ Hparse) as [Hres _].
  destruct (insertOrderSchema_parse_inr _ _ _ Hparse)
    as (_ & _ & _ & Hstreet & Hzip & Hsr).
  eexists. split; [exact Hres |].
  unfold submittedDraft, withModel. rewrite Hfront, Hsr. simpl.
  rewrite !orNull_toString, Hstreet, Hzip.
  rewrite (orNull_given _ (formatPrintTime_nonempty _)).
  repeat split; reflexivity.
Qed.

(** X13: what the preview shows is what a submission without the client's
    own figures stores.  For the same file, the weight, the print time and
    the base cost in the answer of [POST /api/analyze-model] are, as text,
    the model weight, print time and base cost of the order that
    [POST /api/orders] creates, and none of them is null. *)
Theorem preview_matches_stored_estimate (env : Env) (w w' : World)
    (orderData : Body.t) (file : MulterFile) (validatedOrder : InsertOrder.t) :
  insertOrderSchema_parse orderData (supportRequested orderData) = inr validatedOrder ->
  hasFrontendAnalysis orderData = false ->
  exists analysis order,
    (postAnalyzeModel w' (Some file)).2 =
      {| statusCode := 200; json := JsonAnalysis analysis |} /\
    (postOrders env w orderData (Some file)).2 =
      {| statusCode := 200; json := JsonOrder order |} /\
    Order.modelWeight order = Some (toString (Analysis.weight analysis)) /\
    Order.printTime order = Some (Analysis.printTime analysis) /\
    Order.baseCost order = Some (toString (Analysis.baseCost analysis)).
Proof.
  intros Hparse Hfront.
  destruct (fallback_estimate_stored env w orderData file _ Hparse Hfront)
    as (order & Hres & Hweight & Htime & Hbase & _).
  exists (analyze3DModel file), order. split; [reflexivity |].
  repeat split; assumption.
Qed.

Lemma preview_matches_stored_estimate_witness :
  exists analysis order,
    (postAnalyzeModel freshWorld (Some (modelOf 2097152%float))).2 =
      {| statusCode := 200; json := JsonAnalysis analysis |} /\
    (postOrders mailUp freshWorld (bodyOf "meetup") (Some (modelOf 2097152%float))).2 =
      {| statusCode := 200; json := JsonOrder order |} /\
    Order.modelWeight order = Some (toString (Analysis.weight analysis)) /\
    Order.printTime order = Some (Analysis.printTime analysis) /\
    Order.baseCost order = Some (toString (Analysis.baseCost analysis)).
Proof.
  exact (preview_matches_stored_estimate mailUp freshWorld freshWorld (bodyOf "meetup")
           (modelOf 2097152%float) _ eq_refl eq_refl).
Defined.







(** ** Bounds of the estimate *)

(** X15: whenever the print time the estimator works out is a number at
    all, it is at least 30 minutes; and below 1 MB the estimated weight,
    when it is a number, is at least 5 grams. *)
Theorem estimate_lower_bounds (file : MulterFile) :
  let s := fileSizeMB file in
  is_nan (printTimeMinutes s) = false ->
  (30 <=? printTimeMinutes s)%float = true /\
  ((s <? 1)%float = true -> is_nan (estimatedWeight s) = false ->
   (5 <=? estimatedWeight s)%float = true).
Proof.
  intros s Hminutes. split.
  - by apply printTimeMinutes_at_least_30.
  - intros Hsmall Hweight. by apply estimatedWeight_at_least_5.
Qed.

Lemma estimate_lower_bounds_witness :
  let s := fileSizeMB (modelOf 524288%float) in
  (30 <=? printTimeMinutes s)%float = true /\
  ((s <? 1)%float = true -> is_nan (estimatedWeight s) = false ->
   (5 <=? estimatedWeight s)%float = true).
Proof.
  apply (estimate_lower_bounds (modelOf 524288%float)). reflexivity.
Defined.

(** *** Submissions with the client's own figures *)



(** ** The carousel *)

Section CarouselProperties.
Variable totalSlides : Z.
Hypothesis some_slides : 0 < totalSlides.

(** X16: the arrows never leave the slides: from a slide index in range both
    arrows give an index in range; "next" on the last slide gives the first
    and "previous" on the first gives the last. *)
Theorem slide_stays_in_range (current : Z) :
  0 <= current < totalSlides ->
  0 <= nextSlide totalSlides current < totalSlides /\
  0 <= prevSlide totalSlides current < totalSlides /\
  nextSlide totalSlides (totalSlides - 1) = 0 /\
  prevSlide totalSlides 0 = totalSlides - 1.
Proof.
  intros Hrange. unfold nextSlide, prevSlide. split; [|split; [|split]].
  - apply Z.mod_pos_bound. exact some_slides.
  - destruct (Z.eqb_spec current 0); lia.
  - replace (totalSlides - 1 + 1) with (1 * totalSlides) by lia.
    apply Z.mod_mul. lia.
  - reflexivity.
Qed.

(** X17: the two arrows undo each other on every slide. *)
Theorem arrows_undo_each_other (current : Z) :
  0 <= current < totalSlides ->
  prevSlide totalSlides (nextSlide totalSlides current) = current /\
  nextSlide totalSlides (prevSlide totalSlides current) = current.
Proof.
  intros Hrange. unfold nextSlide, prevSlide. split.
  - destruct (Z.eq_dec current (totalSlides - 1)) as [-> | Hlast].
    + replace (totalSlides - 1 + 1) with (1 * totalSlides) by lia.
      rewrite Z.mod_mul by lia. reflexivity.
    + rewrite Z.mod_small by lia.
      destruct (Z.eqb_spec (current + 1) 0); lia.
  - destruct (Z.eqb_spec current 0) as [-> | Hfirst].
    + replace (totalSlides - 1 + 1) with (1 * totalSlides) by lia.
      rewrite Z.mod_mul by lia. reflexivity.
    + replace (current - 1 + 1) with current by lia.
      apply Z.mod_small. lia.
Qed.

Lemma nextSlide_iter (n : nat) (current : Z) :
  0 <= current < totalSlides ->
  Nat.iter n (nextSlide totalSlides) current = (current + Z.of_nat n) mod totalSlides.
Proof.
  intros Hrange. induction n as [|n IH].
  - simpl. rewrite Z.add_0_r, Z.mod_small by lia. reflexivity.
  - rewrite Nat2Z.inj_succ. simpl. rewrite IH. unfold nextSlide.
    rewrite Zplus_mod_idemp_l. f_equal. lia.
Qed.

(** X18: pressing "next" as many times as there are slides, or letting the
    timer advance that often, shows the slide one started from. *)
Theorem full_round_returns (current : Z) :
  0 <= current < totalSlides ->
  Nat.iter (Z.to_nat totalSlides) (nextSlide totalSlides) current = current.
Proof.
  intros Hrange. rewrite nextSlide_iter by assumption.
  rewrite Z2Nat.id by lia.
  replace (current + totalSlides) with (current + 1 * totalSlides) by lia.
  rewrite Z.mod_add by lia. apply Z.mod_small. exact Hrange.
Qed.

End CarouselProperties.

Lemma slide_stays_in_range_witness :
  0 <= nextSlide 3 2 < 3 /\ 0 <= prevSlide 3 2 < 3 /\
  nextSlide 3 (3 - 1) = 0 /\ prevSlide 3 0 = 3 - 1.
Proof. apply (slide_stays_in_range 3); lia. Defined.

Lemma arrows_undo_each_other_witness :
  prevSlide 3 (nextSlide 3 2) = 2 /\ nextSlide 3 (prevSlide 3 2) = 2.
Proof. apply (arrows_undo_each_other 3); lia. Defined.

Lemma full_round_returns_witness :
  Nat.iter (Z.to_nat 3) (nextSlide 3) 1 = 1.
Proof. apply (full_round_returns 3); lia. Defined.
